(** * onedrive_d.common.tasks: a shallow embedding and its properties

    The module [onedrive_d/common/tasks.py] defines the task classes of the
    synchronizer.  Every task is a Python object whose attributes are set by
    mixin classes; [handle()] performs remote calls through the drive client,
    touches the local filesystem, and records the outcome in the items store.

    The embedding keeps that shape: a task is a record of attributes, the
    collaborators (drive client, items store, task pool) live in a heap and
    are reached through references, and [handle()] is a computation in a
    state-and-exception monad over the task object and the world. *)

From Stdlib Require Import ZArith.
From Stdlib.Strings Require Import Byte.
From stdpp Require Import base option list strings gmap fin_maps.

Local Open Scope string_scope.

(** ** Python strings *)

Module PyStr.

(** [strip_prefix p s] is [Some r] exactly when [s = p ++ r]
    (Python: [s[len(p):]] guarded by [s.startswith(p)]). *)
Fixpoint strip_prefix (p s : string) : option string :=
  match p with
  | EmptyString => Some s
  | String a p' =>
      match s with
      | EmptyString => None
      | String b s' => if decide (a = b) then strip_prefix p' s' else None
      end
  end.

Definition startswith (s p : string) : bool :=
  match strip_prefix p s with Some _ => true | None => false end.

(** [s.replace(old, new, 1)]: the leftmost occurrence of [old] in [s] is
    replaced by [new]; without an occurrence [s] is returned as it is.  An
    empty [old] occurs at position 0, as in Python. *)
Fixpoint replace1 (old new s : string) : string :=
  match strip_prefix old s with
  | Some rest => new ++ rest
  | None =>
      match s with
      | EmptyString => EmptyString
      | String c s' => String c (replace1 old new s')
      end
  end.

(** [occurs_at old s i]: [old] occurs in [s] at offset [i]. *)
Definition occurs_at (old s : string) (i : nat) : Prop :=
  exists pre post, s = pre ++ old ++ post /\ String.length pre = i.

(** [old in s] *)
Definition contains (s old : string) : Prop := exists i, occurs_at old s i.

End PyStr.

(** ** Values shared with the collaborators *)

(** Object identity: a reference names an object of the heap.  Two
    attributes hold the same object exactly when they hold the same
    reference. *)
Definition ref := positive.

(** An attribute slot of a Python object: never assigned, bound to [None],
    or bound to a value. *)
Inductive attr (A : Type) : Type :=
| Unset
| PyNone
| Val (a : A).
Arguments Unset {A}.
Arguments PyNone {A}.
Arguments Val {A} a.

Definition attr_of_option {A} (o : option A) : attr A :=
  match o with Some a => Val a | None => PyNone end.

(** Exception classes that matter to the [except] clauses of the module.
    [errors.OneDriveError] (onedrive_d.api.errors, not part of this module)
    is what the drive client raises for a failed API call; the others are
    Python's own.  Every class below derives from [Exception]. *)
Inductive ExnClass := OneDriveError | OSError | AttributeError | TypeError | OtherException.

Record exn := { exn_class : ExnClass; exn_msg : string }.

Definition isinstance_OneDriveError (e : exn) : bool :=
  match exn_class e with OneDriveError => true | _ => false end.

Definition isinstance_Exception (e : exn) : bool := true.

Inductive Result (A : Type) : Type :=
| Returns (a : A)
| Raises (e : exn).
Arguments Returns {A} a.
Arguments Raises {A} e.

Definition returned {A} (r : Result A) : bool :=
  match r with Returns _ => true | Raises _ => false end.

(** Modelled from the spec: [options.NameConflictBehavior]
    (onedrive_d.api.options) is not part of this module.  It is an
    enumeration handed through to the drive client; RENAME is the member the
    tasks name. *)
Inductive NameConflictBehavior := RENAME | OTHER_BEHAVIOR (tag : string).

(** Modelled from the spec: [ItemRecordStatuses] (onedrive_d.store.items_db)
    is not part of this module.  OK and DOWNLOADED are the members the tasks
    use; other components have more. *)
Inductive ItemRecordStatuses := OK | DOWNLOADED | OTHER_STATUS (tag : string).

Inductive LogLevel := INFO | ERROR.

Record LogRecord := { log_level : LogLevel; log_fmt : string; log_args : list string }.

Definition bytes := list byte.

Inductive OpenMode := WB | RB.

Inductive TaskClass :=
| TaskMixin
| SynchronizeDirTask
| CreateDirTask
| RemoveItemTask
| DownloadFileTask
| UploadFileTask
| MoveItemTask
| CopyItemTask
| UpdateItemInfoTask.

Section Tasks.

(** [datetime] objects and filesystem timestamps (Python floats) are opaque
    here; the two conversions are imported from the package's [__init__]. *)
Context {datetime timestamp : Type}.
Variable datetime_to_timestamp : datetime -> timestamp.
Variable timestamp_to_datetime : timestamp -> datetime.

(** The item resource returned by the drive client: the attributes the
    tasks read ([id], [name], [size], [modified_time],
    [parent_reference.path]) and the folder flag that keys store records. *)
Record Item := {
  item_id : string;
  item_name : string;
  item_parent_reference_path : string;
  item_size : Z;
  item_modified_time : datetime;
  item_is_folder : bool }.

(** [facets.FileSystemInfoFacet(modified_time=...)] *)
Record FileSystemInfoFacet := { fsi_modified_time : datetime }.

(** A task object: its class and its attribute slots.  The slots are those
    that the mixins' property setters and the constructors assign. *)
Record Task := {
  cls : TaskClass;
  _drive : attr ref;
  _items_store : attr ref;
  _task_pool : attr ref;
  _name : attr string;
  _item : attr Item;
  _parent_path : attr string;
  conflict_behavior : attr NameConflictBehavior;
  is_folder : attr bool }.

(** What [object.__new__(cls)] gives: no attribute assigned yet. *)
Definition blank (c : TaskClass) : Task :=
  {| cls := c; _drive := Unset; _items_store := Unset; _task_pool := Unset;
     _name := Unset; _item := Unset; _parent_path := Unset;
     conflict_behavior := Unset; is_folder := Unset |}.

(** Modelled from the spec: the drive client (onedrive_d.api) is not part
    of this module.  The object has [drive_path] and [config.local_root],
    and the methods [create_dir], [delete_item], [download_file],
    [upload_file] and [update_item], each of which may raise.  What the
    remote service answers is not decided here: the record holds the
    outcome of each method per argument tuple, which describes a run since
    every [handle()] calls each method at most once.  [download_file] writes
    to the sink it is given: it yields the bytes written and the exception
    that interrupted it, if any.

    An argument that a task hands over straight from one of its attributes
    may be [None] (the attribute was assigned [None]); such an argument is
    an [option], and what the client does with [None] is the client's
    business like the rest of its answer. *)
Record Drive := {
  drive_path : string;
  config_local_root : string;
  create_dir : option string -> option string -> option NameConflictBehavior -> Result Item;
  delete_item : string -> Result unit;
  download_file : Z -> string -> bytes * option exn;
  upload_file :
    string -> bytes -> Z -> string -> option NameConflictBehavior -> Result Item;
  update_item : string -> FileSystemInfoFacet -> Result Item }.

(** Modelled from the spec: the items store (onedrive_d.store.items_db) is
    not part of this module.  A record is kept per
    (parent path, item name, folder flag) and holds the item with its
    status; [update_item(item, status)] writes the record of the item and
    [delete_item(parent_path, item_name, is_folder)] removes the record
    under that key.  The folder flag of a key is the argument as the caller
    passed it, which may be [None]; the key of an item's record carries the
    item's own flag. *)
Definition StoreKey : Type := string * string * option bool.

Definition store_key (it : Item) : StoreKey :=
  (item_parent_reference_path it, item_name it, Some (item_is_folder it)).

Definition ItemsStore_update_item (it : Item) (status : ItemRecordStatuses)
    (s : gmap StoreKey (Item * ItemRecordStatuses)) :
    gmap StoreKey (Item * ItemRecordStatuses) :=
  <[store_key it := (it, status)]> s.

Definition ItemsStore_delete_item (parent_path item_name : string) (folder : option bool)
    (s : gmap StoreKey (Item * ItemRecordStatuses)) :
    gmap StoreKey (Item * ItemRecordStatuses) :=
  delete (parent_path, item_name, folder) s.

(** The local filesystem of the operating system, as far as the tasks use
    it: a node per path, a file with its content and times or a
    directory. *)
Inductive Node :=
| File (content : bytes) (atime mtime : timestamp)
| Dir.

(** Calls that leave the module. *)
Inductive Call :=
| DriveCreateDir (d : ref) (name parent_path : option string)
    (cb : option NameConflictBehavior)
| DriveDeleteItem (d : ref) (item_path : string)
| DriveDownloadFile (d : ref) (sink : string) (size : Z) (item_id : string)
| DriveUploadFile (d : ref) (filename : string) (data : bytes) (size : Z)
    (parent_path : string) (cb : option NameConflictBehavior)
| DriveUpdateItem (d : ref) (item_id : string) (new_file_system_info : FileSystemInfoFacet)
| StoreUpdateItem (s : ref) (it : Item) (status : ItemRecordStatuses)
| StoreDeleteItem (s : ref) (parent_path item_name : string) (folder : option bool)
| PoolAddTask (p : ref) (t : Task)
| Open (path : string) (mode : OpenMode)
| OsRename (src dst : string)
| OsUtime (path : string) (atime mtime : timestamp)
| OsPathGetsize (path : string)
| OsPathGetmtime (path : string).

Definition is_drive_call (c : Call) : bool :=
  match c with
  | DriveCreateDir _ _ _ _ | DriveDeleteItem _ _ | DriveDownloadFile _ _ _ _
  | DriveUploadFile _ _ _ _ _ _ | DriveUpdateItem _ _ _ => true
  | _ => false
  end.

Definition is_rename_call (c : Call) : bool :=
  match c with OsRename _ _ => true | _ => false end.

(** The world a task runs in.  [fault] lets a store, pool or filesystem call
    fail for a reason outside the model (database error, permission,
    missing parent directory); [trace] records every outgoing call, in
    order, with whether it returned normally; [now] is the time the
    filesystem stamps on a written file. *)
Record World := {
  drives : gmap ref Drive;
  stores : gmap ref (gmap StoreKey (Item * ItemRecordStatuses));
  pools : gmap ref (list Task);
  fs : gmap string Node;
  now : timestamp;
  fault : Call -> option exn;
  trace : list (Call * bool);
  log : list LogRecord }.

(** ** The monad of a method body *)

Record State := { self : Task; world : World }.

Definition M (A : Type) : Type := State -> Result A * State.

Definition ret {A} (a : A) : M A := fun st => (Returns a, st).

Definition raise {A} (c : ExnClass) (msg : string) : M A :=
  fun st => (Raises {| exn_class := c; exn_msg := msg |}, st).

Definition throw {A} (e : exn) : M A := fun st => (Raises e, st).

Definition bind {A B} (m : M A) (k : A -> M B) : M B :=
  fun st =>
    match m st with
    | (Returns a, st') => k a st'
    | (Raises e, st') => (Raises e, st')
    end.

(** [try: body except <catches> as e: handler e] *)
Definition try_except {A} (body : M A) (catches : exn -> bool) (handler : exn -> M A) : M A :=
  fun st =>
    match body st with
    | (Returns a, st') => (Returns a, st')
    | (Raises e, st') => if catches e then handler e st' else (Raises e, st')
    end.

#[local] Instance M_ret : MRet M := @ret.
#[local] Instance M_bind : MBind M := fun A B k m => bind m k.

Definition get_world : M World := fun st => (Returns (world st), st).

Definition modify_world (f : World -> World) : M unit :=
  fun st => (Returns (), {| self := self st; world := f (world st) |}).

Definition modify_self (f : Task -> Task) : M unit :=
  fun st => (Returns (), {| self := f (self st); world := world st |}).

(** Evaluate an expression in [self]. *)
Definition on_self {A} (g : Task -> M A) : M A := fun st => g (self st) st.

Definition lift_result {A} (r : Result A) : M A := fun st => (r, st).

(** [Cls(...)]: a blank object of the class is initialised by [init], run
    with the new object as [self]; the caller's [self] is kept. *)
Definition new (c : TaskClass) (init : M unit) : M Task :=
  fun st =>
    match init {| self := blank c; world := world st |} with
    | (Returns _, st') => (Returns (self st'), {| self := self st; world := world st' |})
    | (Raises e, st') => (Raises e, {| self := self st; world := world st' |})
    end.

(** *** Attribute access *)

(** Reading a slot: a slot never assigned raises [AttributeError]. *)
Definition getattr {A} (slot : string) (a : attr A) : M (option A) :=
  match a with
  | Unset => raise AttributeError ("object has no attribute " ++ slot)
  | PyNone => ret None
  | Val x => ret (Some x)
  end.

(** Using [None] where the operation needs an object: [None.attr] raises
    [AttributeError], [None + str] and [str + None] raise [TypeError]. *)
Definition need {A} (c : ExnClass) (o : option A) : M A :=
  match o with
  | Some x => ret x
  | None => raise c "NoneType"
  end.

Definition with_drive (v : attr ref) (o : Task) : Task :=
  {| cls := cls o; _drive := v; _items_store := _items_store o; _task_pool := _task_pool o;
     _name := _name o; _item := _item o; _parent_path := _parent_path o;
     conflict_behavior := conflict_behavior o; is_folder := is_folder o |}.

Definition with_items_store (v : attr ref) (o : Task) : Task :=
  {| cls := cls o; _drive := _drive o; _items_store := v; _task_pool := _task_pool o;
     _name := _name o; _item := _item o; _parent_path := _parent_path o;
     conflict_behavior := conflict_behavior o; is_folder := is_folder o |}.

Definition with_task_pool (v : attr ref) (o : Task) : Task :=
  {| cls := cls o; _drive := _drive o; _items_store := _items_store o; _task_pool := v;
     _name := _name o; _item := _item o; _parent_path := _parent_path o;
     conflict_behavior := conflict_behavior o; is_folder := is_folder o |}.

Definition with_name (v : attr string) (o : Task) : Task :=
  {| cls := cls o; _drive := _drive o; _items_store := _items_store o; _task_pool := _task_pool o;
     _name := v; _item := _item o; _parent_path := _parent_path o;
     conflict_behavior := conflict_behavior o; is_folder := is_folder o |}.

Definition with_item (v : attr Item) (o : Task) : Task :=
  {| cls := cls o; _drive := _drive o; _items_store := _items_store o; _task_pool := _task_pool o;
     _name := _name o; _item := v; _parent_path := _parent_path o;
     conflict_behavior := conflict_behavior o; is_folder := is_folder o |}.

Definition with_parent_path (v : attr string) (o : Task) : Task :=
  {| cls := cls o; _drive := _drive o; _items_store := _items_store o; _task_pool := _task_pool o;
     _name := _name o; _item := _item o; _parent_path := v;
     conflict_behavior := conflict_behavior o; is_folder := is_folder o |}.

Definition with_conflict_behavior (v : attr NameConflictBehavior) (o : Task) : Task :=
  {| cls := cls o; _drive := _drive o; _items_store := _items_store o; _task_pool := _task_pool o;
     _name := _name o; _item := _item o; _parent_path := _parent_path o;
     conflict_behavior := v; is_folder := is_folder o |}.

Definition with_is_folder (v : attr bool) (o : Task) : Task :=
  {| cls := cls o; _drive := _drive o; _items_store := _items_store o; _task_pool := _task_pool o;
     _name := _name o; _item := _item o; _parent_path := _parent_path o;
     conflict_behavior := conflict_behavior o; is_folder := v |}.

(** *** Updates of the world *)

Definition with_stores (v : gmap ref (gmap StoreKey (Item * ItemRecordStatuses))) (w : World) : World :=
  {| drives := drives w; stores := v; pools := pools w; fs := fs w; now := now w;
     fault := fault w; trace := trace w; log := log w |}.

Definition with_pools (v : gmap ref (list Task)) (w : World) : World :=
  {| drives := drives w; stores := stores w; pools := v; fs := fs w; now := now w;
     fault := fault w; trace := trace w; log := log w |}.

Definition with_fs (v : gmap string Node) (w : World) : World :=
  {| drives := drives w; stores := stores w; pools := pools w; fs := v; now := now w;
     fault := fault w; trace := trace w; log := log w |}.

Definition with_trace (v : list (Call * bool)) (w : World) : World :=
  {| drives := drives w; stores := stores w; pools := pools w; fs := fs w; now := now w;
     fault := fault w; trace := v; log := log w |}.

Definition with_log (v : list LogRecord) (w : World) : World :=
  {| drives := drives w; stores := stores w; pools := pools w; fs := fs w; now := now w;
     fault := fault w; trace := trace w; log := v |}.

Definition traced (c : Call) (ok : bool) (st : State) : State :=
  {| self := self st; world := with_trace (trace (world st) ++ [(c, ok)]) (world st) |}.

(** An outgoing call: its outcome is appended to the trace. *)
Definition invoke {A} (c : Call) (body : M A) : M A :=
  fun st =>
    match body st with
    | (Returns a, st') => (Returns a, traced c true st')
    | (Raises e, st') => (Raises e, traced c false st')
    end.

(** The call fails outright when the world injects a fault for it. *)
Definition faulty {A} (c : Call) (body : M A) : M A :=
  fun st =>
    match fault (world st) c with
    | Some e => (Raises e, st)
    | None => body st
    end.

(** Following a reference into the heap. *)
Definition deref {A} (heap : World -> gmap ref A) (r : ref) : M A :=
  fun st =>
    match heap (world st) !! r with
    | Some x => (Returns x, st)
    | None => (Raises {| exn_class := OtherException; exn_msg := "dangling reference" |}, st)
    end.

(** *** The logger shared by all tasks *)

Definition logger_info (fmt : string) (args : list string) : M unit :=
  modify_world (fun w =>
    with_log (log w ++ [{| log_level := INFO; log_fmt := fmt; log_args := args |}]) w).

Definition logger_error (fmt : string) (args : list string) : M unit :=
  modify_world (fun w =>
    with_log (log w ++ [{| log_level := ERROR; log_fmt := fmt; log_args := args |}]) w).

(** [str(x)] for an optional string, as [%s] prints it. *)
Definition py_str (o : option string) : string := default "None" o.

(** *** The drive client *)

Definition Drive_create_dir (r : ref) (name parent_path : option string)
    (cb : option NameConflictBehavior) : M Item :=
  drv ← deref drives r;
  invoke (DriveCreateDir r name parent_path cb)
    (lift_result (create_dir drv name parent_path cb)).

Definition Drive_delete_item (r : ref) (item_path : string) : M unit :=
  drv ← deref drives r;
  invoke (DriveDeleteItem r item_path) (lift_result (delete_item drv item_path)).

(** [file] is the object just opened on [sink] for writing: what the client
    writes becomes the content at that path, also when it then fails. *)
Definition Drive_download_file (r : ref) (sink : string) (size : Z)
    (item_id : string) : M unit :=
  drv ← deref drives r;
  invoke (DriveDownloadFile r sink size item_id)
    (modify_world (fun w =>
       with_fs (<[sink := File (download_file drv size item_id).1 (now w) (now w)]> (fs w)) w);;
     match (download_file drv size item_id).2 with
     | Some e => throw e
     | None => ret ()
     end).

Definition Drive_upload_file (r : ref) (filename : string) (data : bytes)
    (size : Z) (parent_path : string) (cb : option NameConflictBehavior) : M Item :=
  drv ← deref drives r;
  invoke (DriveUploadFile r filename data size parent_path cb)
    (lift_result (upload_file drv filename data size parent_path cb)).

Definition Drive_update_item (r : ref) (item_id : string)
    (new_file_system_info : FileSystemInfoFacet) : M Item :=
  drv ← deref drives r;
  invoke (DriveUpdateItem r item_id new_file_system_info)
    (lift_result (update_item drv item_id new_file_system_info)).

(** *** The items store and the task pool *)

Definition items_store_update_item (r : ref) (it : Item)
    (status : ItemRecordStatuses) : M unit :=
  invoke (StoreUpdateItem r it status)
    (faulty (StoreUpdateItem r it status)
       (db ← deref stores r;
        modify_world (fun w =>
          with_stores (<[r := ItemsStore_update_item it status db]> (stores w)) w))).

Definition items_store_delete_item (r : ref) (parent_path item_name : string)
    (folder : option bool) : M unit :=
  invoke (StoreDeleteItem r parent_path item_name folder)
    (faulty (StoreDeleteItem r parent_path item_name folder)
       (db ← deref stores r;
        modify_world (fun w =>
          with_stores
            (<[r := ItemsStore_delete_item parent_path item_name folder db]> (stores w)) w))).

Definition task_pool_add_task (r : ref) (t : Task) : M unit :=
  invoke (PoolAddTask r t)
    (faulty (PoolAddTask r t)
       (q ← deref pools r;
        modify_world (fun w => with_pools (<[r := (q ++ [t])%list]> (pools w)) w))).

(** *** The local filesystem: [open], [os.rename], [os.utime], [os.path] *)

Definition no_such_file {A} : M A := raise OSError "No such file or directory".

(** [open(path, 'wb')]: creates the file or truncates it. *)
Definition open_wb (path : string) : M unit :=
  invoke (Open path WB)
    (faulty (Open path WB)
       (w ← get_world;
        match fs w !! path with
        | Some Dir => raise OSError "Is a directory"
        | _ => modify_world (with_fs (<[path := File [] (now w) (now w)]> (fs w)))
        end)).

(** [open(path, 'rb')]: the content a reader of the file object gets. *)
Definition open_rb (path : string) : M bytes :=
  invoke (Open path RB)
    (faulty (Open path RB)
       (w ← get_world;
        match fs w !! path with
        | Some (File c _ _) => ret c
        | Some Dir => raise OSError "Is a directory"
        | None => no_such_file
        end)).

(** Where a path goes when [src] is renamed to [dst]: the entry itself and
    everything below it. *)
Definition rekey (src dst p : string) : string :=
  if decide (p = src) then dst
  else match PyStr.strip_prefix (src ++ "/") p with
       | Some rest => dst ++ "/" ++ rest
       | None => p
       end.

Definition move_tree (src dst : string) (t : gmap string Node) : gmap string Node :=
  map_fold (fun p n acc => <[rekey src dst p := n]> acc) ∅ t.

Definition has_entries_below (dir : string) (t : gmap string Node) : bool :=
  map_fold (fun p _ b => b || PyStr.startswith p (dir ++ "/")) false t.

Definition os_rename (src dst : string) : M unit :=
  invoke (OsRename src dst)
    (faulty (OsRename src dst)
       (w ← get_world;
        match fs w !! src with
        | None => no_such_file
        | Some (File c a m) =>
            match fs w !! dst with
            | Some Dir => raise OSError "Is a directory"
            | _ => modify_world (with_fs (<[dst := File c a m]> (delete src (fs w))))
            end
        | Some Dir =>
            if decide (src = dst) then ret ()
            else
              match fs w !! dst with
              | Some (File _ _ _) => raise OSError "Not a directory"
              | _ =>
                  if has_entries_below dst (fs w)
                  then raise OSError "Directory not empty"
                  else modify_world (with_fs (move_tree src dst (fs w)))
              end
        end)).

(** [os.utime(path, (atime, mtime))] *)
Definition os_utime (path : string) (times : timestamp * timestamp) : M unit :=
  invoke (OsUtime path times.1 times.2)
    (faulty (OsUtime path times.1 times.2)
       (w ← get_world;
        match fs w !! path with
        | None => no_such_file
        | Some (File c _ _) =>
            modify_world (with_fs (<[path := File c times.1 times.2]> (fs w)))
        | Some Dir => ret ()
        end)).

(** [os.path.getsize(path)]; the size reported for a directory is left at 0. *)
Definition os_path_getsize (path : string) : M Z :=
  invoke (OsPathGetsize path)
    (faulty (OsPathGetsize path)
       (w ← get_world;
        match fs w !! path with
        | None => no_such_file
        | Some (File c _ _) => ret (Z.of_nat (length c))
        | Some Dir => ret 0%Z
        end)).

(** [os.path.getmtime(path)]; directories carry no time of their own. *)
Definition os_path_getmtime (path : string) : M timestamp :=
  invoke (OsPathGetmtime path)
    (faulty (OsPathGetmtime path)
       (w ← get_world;
        match fs w !! path with
        | None => no_such_file
        | Some (File _ _ m) => ret m
        | Some Dir => ret (now w)
        end)).

(** ** The classes of the module *)

(** *** TaskMixin *)

Definition drive (o : Task) : M (option ref) := getattr "_drive" (_drive o).

Definition set_drive (d : option ref) : M unit :=
  modify_self (with_drive (attr_of_option d)).

Definition items_store (o : Task) : M (option ref) :=
  getattr "_items_store" (_items_store o).

Definition set_items_store (s : option ref) : M unit :=
  modify_self (with_items_store (attr_of_option s)).

Definition task_pool (o : Task) : M (option ref) :=
  getattr "_task_pool" (_task_pool o).

Definition set_task_pool (p : option ref) : M unit :=
  modify_self (with_task_pool (attr_of_option p)).

Definition TaskMixin_init (task_base : option Task)
    (drive0 items_store0 task_pool0 : option ref) : M unit :=
  d ← match task_base with None => ret drive0 | Some b => drive b end;
  set_drive d;;
  s ← match task_base with None => ret items_store0 | Some b => items_store b end;
  set_items_store s;;
  p ← match task_base with None => ret task_pool0 | Some b => task_pool b end;
  set_task_pool p.

(** *** NameReferenceMixin, ItemReferenceMixin, ParentPathReferenceMixin *)

Definition name (o : Task) : M (option string) := getattr "_name" (_name o).

Definition set_name (n : option string) : M unit :=
  modify_self (with_name (attr_of_option n)).

Definition item (o : Task) : M (option Item) := getattr "_item" (_item o).

Definition set_item (n : option Item) : M unit :=
  modify_self (with_item (attr_of_option n)).

Definition parent_path (o : Task) : M (option string) :=
  getattr "_parent_path" (_parent_path o).

Definition set_parent_path (path : option string) : M unit :=
  modify_self (with_parent_path (attr_of_option path)).

(** *** LocalParentPathMixin *)

Definition local_parent_path (o : Task) : M string :=
  pp ← parent_path o ≫= need AttributeError;
  d1 ← drive o ≫= need AttributeError;
  drv1 ← deref drives d1;
  d2 ← drive o ≫= need AttributeError;
  drv2 ← deref drives d2;
  ret (PyStr.replace1 (drive_path drv1 ++ "/root:") (config_local_root drv2) pp).

Definition set_local_parent_path (relative_path : string) : M unit :=
  d ← on_self drive ≫= need AttributeError;
  drv ← deref drives d;
  set_parent_path (Some (drive_path drv ++ "/root:" ++ relative_path)).

(** *** SynchronizeDirTask, MoveItemTask, CopyItemTask, UpdateItemInfoTask

    Their [__init__] and [handle] bodies are [pass]. *)

Definition SynchronizeDirTask_init (task_base : Task) : M unit := ret ().

Definition SynchronizeDirTask_handle : M unit := ret ().

Definition MoveItemTask_init (task_base : Task) : M unit := ret ().

Definition MoveItemTask_handle : M unit := ret ().

Definition CopyItemTask_init (task_base : Task) : M unit := ret ().

Definition CopyItemTask_handle : M unit := ret ().

Definition UpdateItemInfoTask_init (task_base : Task) : M unit := ret ().

Definition UpdateItemInfoTask_handle : M unit := ret ().

(** *** CreateDirTask *)

Definition get_conflict_behavior (o : Task) : M (option NameConflictBehavior) :=
  getattr "conflict_behavior" (conflict_behavior o).

Definition get_is_folder (o : Task) : M (option bool) :=
  getattr "is_folder" (is_folder o).

Definition CreateDirTask_init (task_base : option Task) (local_parent_path0 name0 : string)
    (conflict_behavior0 : NameConflictBehavior) : M unit :=
  TaskMixin_init task_base None None None;;
  set_local_parent_path local_parent_path0;;
  set_name (Some name0);;
  modify_self (with_conflict_behavior (Val conflict_behavior0)).

(** The three arguments of [create_dir] are the attributes as they are,
    [None] included.  In the [os.rename] line the name is appended to a
    string, which raises [TypeError] for [None]. *)
Definition CreateDirTask_handle : M unit :=
  try_except
    (d ← on_self drive ≫= need AttributeError;
     n ← on_self name;
     pp ← on_self parent_path;
     cb ← on_self get_conflict_behavior;
     new_item ← Drive_create_dir d n pp cb;
     set_parent_path (Some (item_parent_reference_path new_item));;
     n' ← on_self name;
     (if decide (Some (item_name new_item) = n') then ret ()
      else
        l1 ← on_self local_parent_path;
        n1 ← on_self name ≫= need TypeError;
        l2 ← on_self local_parent_path;
        os_rename (l1 ++ "/" ++ n1) (l2 ++ "/" ++ item_name new_item));;
     s ← on_self items_store ≫= need AttributeError;
     items_store_update_item s new_item OK;;
     pp' ← on_self parent_path;
     logger_info "Created remote directory: %s/%s. Item ID: %s."
       [py_str pp'; item_name new_item; item_id new_item];;
     sync_task ← on_self (fun o => new SynchronizeDirTask (SynchronizeDirTask_init o));
     p ← on_self task_pool ≫= need AttributeError;
     task_pool_add_task p sync_task)
    isinstance_OneDriveError
    (fun e => logger_error "An API error occurred: %s." [exn_msg e]).

(** *** RemoveItemTask *)

Definition RemoveItemTask_init (task_base : option Task) (local_parent_path0 name0 : string)
    (is_folder0 : bool) : M unit :=
  TaskMixin_init task_base None None None;;
  set_local_parent_path local_parent_path0;;
  set_name (Some name0);;
  modify_self (with_is_folder (Val is_folder0)).

Definition dquote : string := String (Ascii.Ascii false true false false false true false false) EmptyString.

(** [p] is a concatenation, so the parent path and the name are strings
    from there on (and are read again as such for the store); [is_folder]
    goes to the store as it is, [None] included. *)
Definition RemoveItemTask_handle : M unit :=
  pp ← on_self parent_path ≫= need TypeError;
  n ← on_self name ≫= need TypeError;
  let p := pp ++ "/" ++ n in
  try_except
    (d ← on_self drive ≫= need AttributeError;
     Drive_delete_item d p;;
     s ← on_self items_store ≫= need AttributeError;
     pp' ← on_self parent_path ≫= need TypeError;
     n' ← on_self name ≫= need TypeError;
     f ← on_self get_is_folder;
     items_store_delete_item s pp' n' f)
    isinstance_OneDriveError
    (fun e =>
       logger_error ("An API error occurred when deleting " ++ dquote ++ "%s" ++ dquote ++ ": %s.")
         [p; exn_msg e]).

(** *** DownloadFileTask *)

Definition DownloadFileTask_init (task_base : option Task) (item0 : Item) : M unit :=
  TaskMixin_init task_base None None None;;
  set_item (Some item0);;
  set_parent_path (Some (item_parent_reference_path item0)).

Definition get_temp_filename (o : Task) : M string :=
  it ← item o ≫= need AttributeError;
  ret ("." ++ item_name it ++ ".!od_tmp").

Definition DownloadFileTask_handle : M unit :=
  l1 ← on_self local_parent_path;
  tmp ← on_self get_temp_filename;
  let local_temp_path := l1 ++ "/" ++ tmp in
  l2 ← on_self local_parent_path;
  it0 ← on_self item ≫= need AttributeError;
  let local_item_path := l2 ++ "/" ++ item_name it0 in
  try_except
    (open_wb local_temp_path;;
     d ← on_self drive ≫= need AttributeError;
     it1 ← on_self item ≫= need AttributeError;
     it2 ← on_self item ≫= need AttributeError;
     Drive_download_file d local_temp_path (item_size it1) (item_id it2);;
     os_rename local_temp_path local_item_path;;
     it3 ← on_self item ≫= need AttributeError;
     let t := datetime_to_timestamp (item_modified_time it3) in
     os_utime local_item_path (t, t);;
     s ← on_self items_store ≫= need AttributeError;
     it4 ← on_self item ≫= need TypeError;
     items_store_update_item s it4 DOWNLOADED)
    isinstance_Exception
    (fun e =>
       logger_error ("Error occurred downloading to file " ++ dquote ++ "%s" ++ dquote ++ ": %s.")
         [local_item_path; exn_msg e]).

(** *** UploadFileTask *)

Definition UploadFileTask_init (task_base : option Task) (local_parent_path0 name0 : string)
    (conflict_behavior0 : NameConflictBehavior) : M unit :=
  TaskMixin_init task_base None None None;;
  set_local_parent_path local_parent_path0;;
  set_name (Some name0);;
  modify_self (with_conflict_behavior (Val conflict_behavior0)).

(** [local_item_path] is built from the parent path and the name, so both
    are strings from there on; [conflict_behavior] goes to [upload_file] as
    it is, [None] included. *)
Definition UploadFileTask_handle : M unit :=
  l ← on_self local_parent_path;
  n0 ← on_self name ≫= need TypeError;
  let local_item_path := l ++ "/" ++ n0 in
  try_except
    (size ← os_path_getsize local_item_path;
     f ← open_rb local_item_path;
     d ← on_self drive ≫= need AttributeError;
     n ← on_self name ≫= need TypeError;
     pp ← on_self parent_path ≫= need TypeError;
     cb ← on_self get_conflict_behavior;
     item1 ← Drive_upload_file d n f size pp cb;
     mt ← os_path_getmtime local_item_path;
     let modified_time := timestamp_to_datetime mt in
     let fs_info := {| fsi_modified_time := modified_time |} in
     d' ← on_self drive ≫= need AttributeError;
     item2 ← Drive_update_item d' (item_id item1) fs_info;
     s ← on_self items_store ≫= need AttributeError;
     items_store_update_item s item2 OK)
    isinstance_Exception
    (fun e =>
       logger_error ("Error occurred when uploading " ++ dquote ++ "%s" ++ dquote ++ ": %s.")
         [local_item_path; exn_msg e]).

(** *** What the pool runs: [task.handle()] by the class of the task.
    [TaskMixin] itself defines no [handle]. *)

Definition handle : M unit :=
  on_self (fun o =>
    match cls o with
    | TaskMixin => raise AttributeError "object has no attribute handle"
    | SynchronizeDirTask => SynchronizeDirTask_handle
    | CreateDirTask => CreateDirTask_handle
    | RemoveItemTask => RemoveItemTask_handle
    | DownloadFileTask => DownloadFileTask_handle
    | UploadFileTask => UploadFileTask_handle
    | MoveItemTask => MoveItemTask_handle
    | CopyItemTask => CopyItemTask_handle
    | UpdateItemInfoTask => UpdateItemInfoTask_handle
    end).

(** [task.handle()] on a task object in a world. *)
Definition run_handle (t : Task) (w : World) : Result unit * State :=
  handle {| self := t; world := w |}.

(** [Cls(task_base, ...)] for each class, evaluated in a world. *)
Definition construct (c : TaskClass) (init : M unit) (w : World) : Result Task * World :=
  match new c init {| self := blank TaskMixin; world := w |} with
  | (r, st) => (r, world st)
  end.

(** *** Construction from a parent task

    [Cls(task_base, ...)] for each class of the module that takes a
    [task_base], with the remaining constructor arguments. *)

Inductive Ctor :=
| NewSynchronizeDirTask
| NewCreateDirTask (local_parent_path0 name0 : string) (cb : NameConflictBehavior)
| NewRemoveItemTask (local_parent_path0 name0 : string) (is_folder0 : bool)
| NewDownloadFileTask (item0 : Item)
| NewUploadFileTask (local_parent_path0 name0 : string) (cb : NameConflictBehavior)
| NewMoveItemTask
| NewCopyItemTask
| NewUpdateItemInfoTask.

Definition ctor_class (k : Ctor) : TaskClass :=
  match k with
  | NewSynchronizeDirTask => SynchronizeDirTask
  | NewCreateDirTask _ _ _ => CreateDirTask
  | NewRemoveItemTask _ _ _ => RemoveItemTask
  | NewDownloadFileTask _ => DownloadFileTask
  | NewUploadFileTask _ _ _ => UploadFileTask
  | NewMoveItemTask => MoveItemTask
  | NewCopyItemTask => CopyItemTask
  | NewUpdateItemInfoTask => UpdateItemInfoTask
  end.

Definition ctor_init (k : Ctor) (task_base : Task) : M unit :=
  match k with
  | NewSynchronizeDirTask => SynchronizeDirTask_init task_base
  | NewCreateDirTask l n cb => CreateDirTask_init (Some task_base) l n cb
  | NewRemoveItemTask l n f => RemoveItemTask_init (Some task_base) l n f
  | NewDownloadFileTask it => DownloadFileTask_init (Some task_base) it
  | NewUploadFileTask l n cb => UploadFileTask_init (Some task_base) l n cb
  | NewMoveItemTask => MoveItemTask_init task_base
  | NewCopyItemTask => CopyItemTask_init task_base
  | NewUpdateItemInfoTask => UpdateItemInfoTask_init task_base
  end.

Definition instantiate (k : Ctor) (task_base : Task) : M Task :=
  new (ctor_class k) (ctor_init k task_base).

(** The classes whose constructor has a body. *)
Definition has_constructor_body (k : Ctor) : bool :=
  match k with
  | NewCreateDirTask _ _ _ | NewRemoveItemTask _ _ _
  | NewDownloadFileTask _ | NewUploadFileTask _ _ _ => true
  | _ => false
  end.

(** ** Vocabulary of the statements *)

(** The drive root marker of a drive. *)
Definition root_marker (drv : Drive) : string := drive_path drv ++ "/root:".

(** A run of [handle()] completes without error when it returns and nothing
    was handed to [logger.error]: every [except] clause of the module logs. *)
Definition completes_without_error (w : World) (out : Result unit * State) : Prop :=
  out.1 = Returns () /\ log (world out.2) = log w.

(** The calls a run added to the trace. *)
Definition calls_of_run (w w' : World) (cs : list (Call * bool)) : Prop :=
  trace w' = (trace w ++ cs)%list.

Definition drive_calls (cs : list (Call * bool)) : list Call :=
  List.filter is_drive_call (map fst cs).

Definition rename_calls (cs : list (Call * bool)) : list Call :=
  List.filter is_rename_call (map fst cs).

End Tasks.

(** ** A concrete world

    Times are integers here: a [datetime] counts milliseconds and a
    filesystem timestamp counts seconds. *)

Module Sample.

Definition to_timestamp (d : Z) : Z := (d / 1000)%Z.
Definition to_datetime (t : Z) : Z := (t * 1000)%Z.

Definition some_file : @Item Z :=
  {| item_id := "F!1"; item_name := "a.txt";
     item_parent_reference_path := "/drive/root:/docs";
     item_size := 3; item_modified_time := 5000%Z; item_is_folder := false |}.

(** An item of the same name in the same folder, with another identity. *)
Definition other_file : @Item Z :=
  {| item_id := "F!2"; item_name := "a.txt";
     item_parent_reference_path := "/drive/root:/docs";
     item_size := 9; item_modified_time := 6000%Z; item_is_folder := false |}.

Definition api_error : exn := {| exn_class := OneDriveError; exn_msg := "itemNotFound" |}.

Definition bad_request : exn := {| exn_class := OneDriveError; exn_msg := "invalidRequest" |}.

(** A drive that answers every well-formed call; [create_dir] resolves the
    name conflict by appending [ 1] to the requested name, and refuses a
    request without a name or a parent path. *)
Definition good_drive : @Drive Z :=
  {| drive_path := "/drive";
     config_local_root := "/home/u/OneDrive";
     create_dir := fun n pp _ =>
       match n, pp with
       | Some n, Some pp =>
           Returns {| item_id := "D!1"; item_name := n ++ " 1";
                      item_parent_reference_path := pp; item_size := 0;
                      item_modified_time := 0%Z; item_is_folder := true |}
       | _, _ => Raises bad_request
       end;
     delete_item := fun _ => Returns ();
     download_file := fun _ _ => ([x01; x02; x03], None);
     upload_file := fun n _ sz pp _ =>
       Returns {| item_id := "U!1"; item_name := n;
                  item_parent_reference_path := pp; item_size := sz;
                  item_modified_time := 0%Z; item_is_folder := false |};
     update_item := fun i info =>
       Returns {| item_id := i; item_name := "a.txt";
                  item_parent_reference_path := "/drive/root:/docs"; item_size := 3;
                  item_modified_time := fsi_modified_time info;
                  item_is_folder := false |} |}.

(** A drive whose every call fails with an API error. *)
Definition failing_drive : @Drive Z :=
  {| drive_path := "/drive";
     config_local_root := "/home/u/OneDrive";
     create_dir := fun _ _ _ => Raises api_error;
     delete_item := fun _ => Raises api_error;
     download_file := fun _ _ => ([], Some api_error);
     upload_file := fun _ _ _ _ _ => Raises api_error;
     update_item := fun _ _ => Raises api_error |}.

Definition old_record : @Item Z * ItemRecordStatuses := (some_file, OK).

Definition the_world (d : @Drive Z) (tree : gmap string (@Node Z)) : @World Z Z :=
  {| drives := {[ 1%positive := d ]};
     stores := {[ 2%positive := {[ store_key some_file := old_record ]} ]};
     pools := {[ 3%positive := [] ]};
     fs := tree;
     now := 7%Z;
     fault := fun _ => None;
     trace := [];
     log := [] |}.

(** The local tree holds the directory [docs/photos] and the file
    [docs/a.txt]. *)
Definition tree : gmap string (@Node Z) :=
  {[ "/home/u/OneDrive/docs" := Dir;
     "/home/u/OneDrive/docs/photos" := Dir;
     "/home/u/OneDrive/docs/a.txt" := File [x0a; x0b] 1%Z 2%Z ]}.

(** The local tree lacks the directory that [CreateDirTask] is to mirror. *)
Definition tree_without_photos : gmap string (@Node Z) :=
  {[ "/home/u/OneDrive/docs" := Dir ]}.

Definition world : @World Z Z := the_world good_drive tree.

(** The same world with a drive that refuses every call. *)
Definition failing_world : @World Z Z := the_world failing_drive tree.

(** The same world without the local directory [docs/photos]. *)
Definition bare_world : @World Z Z := the_world good_drive tree_without_photos.

(** What [good_drive] answers to [create_dir("photos", ...)]. *)
Definition created_dir : @Item Z :=
  {| item_id := "D!1"; item_name := "photos 1";
     item_parent_reference_path := "/drive/root:/docs"; item_size := 0;
     item_modified_time := 0%Z; item_is_folder := true |}.

(** What [good_drive] answers to the upload of [docs/a.txt], and then to
    the update of its modification time (the local file's, 2 s). *)
Definition uploaded_first : @Item Z :=
  {| item_id := "U!1"; item_name := "a.txt";
     item_parent_reference_path := "/drive/root:/docs"; item_size := 2;
     item_modified_time := 0%Z; item_is_folder := false |}.

Definition uploaded : @Item Z :=
  {| item_id := "U!1"; item_name := "a.txt";
     item_parent_reference_path := "/drive/root:/docs"; item_size := 3;
     item_modified_time := 2000%Z; item_is_folder := false |}.

(** The root task the others are derived from. *)
Definition root_task : @Task Z :=
  {| cls := TaskMixin; _drive := Val 1%positive; _items_store := Val 2%positive;
     _task_pool := Val 3%positive; _name := Unset; _item := Unset;
     _parent_path := Unset; conflict_behavior := Unset; is_folder := Unset |}.

Definition task_of (c : TaskClass) (n : attr string) (it : attr (@Item Z)) (pp : attr string)
    (cb : attr NameConflictBehavior) (f : attr bool) : @Task Z :=
  {| cls := c; _drive := Val 1%positive; _items_store := Val 2%positive;
     _task_pool := Val 3%positive; _name := n; _item := it;
     _parent_path := pp; conflict_behavior := cb; is_folder := f |}.

Definition create_photos : @Task Z :=
  task_of CreateDirTask (Val "photos") Unset (Val "/drive/root:/docs") (Val RENAME) Unset.

Definition remove_a_txt : @Task Z :=
  task_of RemoveItemTask (Val "a.txt") Unset (Val "/drive/root:/docs") Unset (Val false).

Definition download_a_txt : @Task Z :=
  task_of DownloadFileTask Unset (Val some_file) (Val "/drive/root:/docs") Unset Unset.

Definition download_other : @Task Z :=
  task_of DownloadFileTask Unset (Val other_file) (Val "/drive/root:/docs") Unset Unset.

Definition upload_a_txt : @Task Z :=
  task_of UploadFileTask (Val "a.txt") Unset (Val "/drive/root:/docs") (Val RENAME) Unset.

(** A task whose parent path has the root marker after one more character. *)
Definition misplaced : @Task Z :=
  task_of CreateDirTask (Val "photos") Unset (Val "x/drive/root:/docs") (Val RENAME) Unset.

End Sample.

(** * Properties *)

(** ** Strings *)


Lemma str_app_cons (ch : Ascii.ascii) (a b : string) : String ch a ++ b = String ch (a ++ b).
Proof. reflexivity. Qed.

Lemma str_app_nil_l (a : string) : EmptyString ++ a = a.
Proof. reflexivity. Qed.

Lemma str_app_assoc (a b c : string) : (a ++ b) ++ c = a ++ b ++ c.
Proof. induction a as [|ch a IH]; [done | by rewrite !str_app_cons, IH]. Qed.

Lemma str_length_app (a b : string) :
  String.length (a ++ b) = String.length a + String.length b.
Proof. induction a as [|ch a IH]; [done | rewrite str_app_cons; simpl; by rewrite IH]. Qed.

Lemma str_app_inv_head (a b c : string) : a ++ b = a ++ c -> b = c.
Proof. apply String.app_inj. Qed.

Lemma str_strip_prefix_app (p r : string) : PyStr.strip_prefix p (p ++ r) = Some r.
Proof.
  induction p as [|a p IH]; [done |].
  rewrite str_app_cons. simpl. destruct (decide (a = a)); [done | congruence].
Qed.

Lemma str_strip_prefix_Some (p s r : string) : PyStr.strip_prefix p s = Some r -> s = p ++ r.
Proof.
  revert s. induction p as [|a p IH]; intros s; simpl.
  - by intros [= ->].
  - destruct s as [|b s]; [done |].
    destruct (decide (a = b)) as [->|]; [| done].
    intros H. by rewrite str_app_cons, <- (IH _ H).
Qed.

Lemma str_strip_prefix_iff (p s r : string) : PyStr.strip_prefix p s = Some r <-> s = p ++ r.
Proof. split; [apply str_strip_prefix_Some | intros ->; apply str_strip_prefix_app]. Qed.

Lemma str_startswith_iff (s p : string) : PyStr.startswith s p = true <-> exists r, s = p ++ r.
Proof.
  unfold PyStr.startswith. split.
  - destruct (PyStr.strip_prefix p s) as [r|] eqn:E; [| done].
    intros _. exists r. by apply str_strip_prefix_Some.
  - intros [r ->]. by rewrite str_strip_prefix_app.
Qed.

Lemma str_occurs_at_0 (old s : string) :
  PyStr.occurs_at old s 0 <-> exists rest, PyStr.strip_prefix old s = Some rest.
Proof.
  split.
  - intros (pre & post & -> & Hl). destruct pre; [| done].
    exists post. rewrite str_app_nil_l. apply str_strip_prefix_app.
  - intros [rest H]. exists EmptyString, rest. split; [| done].
    rewrite str_app_nil_l. by apply str_strip_prefix_Some.
Qed.

Lemma str_occurs_at_S (old : string) (c : Ascii.ascii) (s : string) (i : nat) :
  PyStr.occurs_at old (String c s) (S i) <-> PyStr.occurs_at old s i.
Proof.
  split.
  - intros (pre & post & E & Hl). destruct pre as [|c' pre]; [done |].
    rewrite str_app_cons in E. simpl in Hl. injection E as -> ->.
    exists pre, post. split; [done | lia].
  - intros (pre & post & -> & Hl). exists (String c pre), post.
    rewrite str_app_cons. simpl. split; [done | lia].
Qed.

Lemma str_replace1_prefix (old new rest : string) :
  PyStr.replace1 old new (old ++ rest) = new ++ rest.
Proof.
  destruct (old ++ rest) as [|c s] eqn:E; simpl.
  - rewrite <- E, str_strip_prefix_app. done.
  - rewrite <- E. rewrite str_strip_prefix_app. done.
Qed.

Lemma str_replace1_absent (old new s : string) :
  ~ PyStr.contains s old -> PyStr.replace1 old new s = s.
Proof.
  induction s as [|c s IH]; intros Hno.
  - simpl. destruct (PyStr.strip_prefix old EmptyString) as [rest|] eqn:E; [| done].
    exfalso. apply Hno. exists 0. apply str_occurs_at_0. eauto.
  - simpl. destruct (PyStr.strip_prefix old (String c s)) as [rest|] eqn:E.
    + exfalso. apply Hno. exists 0. apply str_occurs_at_0. eauto.
    + f_equal. apply IH. intros [i Hi]. apply Hno. exists (S i).
      by apply str_occurs_at_S.
Qed.

Lemma str_replace1_first (old new pre post : string) :
  (forall i, PyStr.occurs_at old (pre ++ old ++ post) i -> String.length pre <= i) ->
  PyStr.replace1 old new (pre ++ old ++ post) = pre ++ new ++ post.
Proof.
  induction pre as [|c pre IH]; intros Hfirst.
  - rewrite !str_app_nil_l. apply str_replace1_prefix.
  - rewrite !str_app_cons. simpl. destruct (PyStr.strip_prefix old (String c (pre ++ old ++ post))) as [rest|] eqn:E.
    + assert (String.length (String c pre) <= 0) as Hle.
      { apply Hfirst. rewrite str_app_cons. apply str_occurs_at_0. eauto. }
      simpl in Hle. lia.
    + f_equal. apply IH. intros i Hi.
      assert (String.length (String c pre) <= S i) as Hle.
      { apply Hfirst. rewrite str_app_cons. by apply str_occurs_at_S. }
      simpl in Hle. lia.
Qed.

(** [str.replace(old, new, 1)] on small inputs. *)
Example replace1_at_prefix :
  PyStr.replace1 "/drive/root:" "/home/u/OneDrive" "/drive/root:/a/b" = "/home/u/OneDrive/a/b".
Proof. reflexivity. Qed.

Example replace1_no_occurrence :
  PyStr.replace1 "/drive/root:" "/home/u/OneDrive" "/a/b" = "/a/b".
Proof. reflexivity. Qed.

Example replace1_leftmost_only : PyStr.replace1 "ab" "X" "cabab" = "cXab".
Proof. reflexivity. Qed.

Example replace1_empty_pattern : PyStr.replace1 EmptyString "X" "abc" = "Xabc".
Proof. reflexivity. Qed.

(** ** Stepping through a method body *)

(** One step: unfold the monad, the attribute accessors and the
    collaborators' methods, then project out of the records built. *)
Ltac mred :=
  cbv beta iota zeta delta
    [mbind M_bind bind mret M_ret ret raise throw try_except on_self getattr need
     lift_result new invoke faulty deref traced modify_world modify_self get_world
     logger_info logger_error no_such_file
     drive set_drive items_store set_items_store task_pool set_task_pool
     name set_name item set_item parent_path set_parent_path
     get_conflict_behavior get_is_folder get_temp_filename
     local_parent_path set_local_parent_path TaskMixin_init
     Drive_create_dir Drive_delete_item Drive_download_file Drive_upload_file
     Drive_update_item items_store_update_item items_store_delete_item
     task_pool_add_task SynchronizeDirTask_init attr_of_option
     isinstance_Exception];
  cbn [self world drives stores pools fs now fault trace log
       cls _drive _items_store _task_pool _name _item _parent_path
       conflict_behavior is_folder exn_class exn_msg
       isinstance_OneDriveError returned
       with_drive with_items_store with_task_pool with_name with_item
       with_parent_path with_conflict_behavior with_is_folder
       with_stores with_pools with_fs with_trace with_log fst snd].

(** Unfold the filesystem operations too. *)
Ltac mos :=
  cbv beta iota zeta delta
    [open_wb open_rb os_rename os_utime os_path_getsize os_path_getmtime].

(** A test whose outcome is a hypothesis. *)
Ltac mrw :=
  match goal with
  | H : ?l = _ |- context [match ?l with _ => _ end] => rewrite H
  end.

(** A test whose outcome is open: both ways, innermost test first. *)
Ltac mcase :=
  match goal with
  | |- context [match ?x with _ => _ end] =>
      lazymatch x with
      | context [match _ with _ => _ end] => fail
      | _ => destruct x eqn:?
      end
  end.

(** The calls of a run, as one list after the trace before it. *)
Ltac tr_norm := unfold calls_of_run; mred; rewrite <- ?List.app_assoc.

(** Run along the path the hypotheses fix; run along every path. *)
Ltac mgo := repeat (mred; mrw); mred.
Ltac mall := repeat (mred; first [mrw | mcase]); mred.

Section Properties.
Context {datetime timestamp : Type}.
Variable datetime_to_timestamp : datetime -> timestamp.
Variable timestamp_to_datetime : timestamp -> datetime.

Implicit Types (t o : @Task datetime) (w : @World datetime timestamp)
  (st : @State datetime timestamp) (drv : @Drive datetime) (r s p : ref).

(** The getter on a task that has a parent path and a drive: one
    replacement of the root marker by the local root. *)
Lemma local_parent_path_run o st r drv (pp : string) :
  _parent_path o = Val pp -> _drive o = Val r -> drives (world st) !! r = Some drv ->
  local_parent_path o st
  = (Returns (PyStr.replace1 (root_marker drv) (config_local_root drv) pp), st).
Proof. intros Hpp Hd Hdrv. mgo. reflexivity. Qed.

(** C10 (path translator, malformed input).  On a task with a parent path
    string and a drive, [local_parent_path] returns a string and raises
    nothing, whatever the string is.  When the root marker
    ([drive_path + '/root:']) does not occur in the parent path, the string
    comes back unchanged; when it occurs, at a prefix or further inside, the
    leftmost occurrence is the one replaced by the local root. *)
Theorem local_parent_path_total o st r drv (pp : string) :
  _parent_path o = Val pp -> _drive o = Val r -> drives (world st) !! r = Some drv ->
  exists l, local_parent_path o st = (Returns l, st)
    /\ (~ PyStr.contains pp (root_marker drv) -> l = pp)
    /\ (forall pre post : string,
          pp = pre ++ root_marker drv ++ post ->
          (forall i, PyStr.occurs_at (root_marker drv) pp i -> String.length pre <= i) ->
          l = pre ++ config_local_root drv ++ post).
Proof.
  intros Hpp Hd Hdrv. eexists. split; [by eapply local_parent_path_run |]. split.
  - apply str_replace1_absent.
  - intros pre post -> Hfirst. by apply str_replace1_first.
Qed.

(** C1 (path round trip).  Let [x] be a remote parent path that begins with
    the root marker of the drive.  The getter maps [x] to the local root
    followed by a relative path, and whatever relative path remains after
    stripping the local root, the setter maps it back to [x]. *)
Theorem path_round_trip o o2 w r drv (x : string) :
  _drive o = Val r -> _drive o2 = Val r -> drives w !! r = Some drv ->
  _parent_path o = Val x ->
  PyStr.startswith x (root_marker drv) = true ->
  exists l,
    local_parent_path o {| self := o; world := w |} = (Returns l, {| self := o; world := w |})
    /\ (exists rel, l = config_local_root drv ++ rel)
    /\ (forall rel, l = config_local_root drv ++ rel ->
        exists o', set_local_parent_path rel {| self := o2; world := w |}
                   = (Returns (), {| self := o'; world := w |})
                /\ _parent_path o' = Val x).
Proof.
  intros Hd Hd2 Hdrv Hpp Hx.
  apply str_startswith_iff in Hx as [rel0 ->].
  eexists. split; [by eapply local_parent_path_run |].
  rewrite str_replace1_prefix. split; [by eexists |].
  intros rel Hrel. apply str_app_inv_head in Hrel as <-.
  eexists. split.
  - mgo. reflexivity.
  - cbn. unfold root_marker. by rewrite str_app_assoc.
Qed.

(** C2 (CreateDirTask, failure).  When [create_dir] raises an API error,
    [handle()] returns after logging it: the stores, the pools and the
    filesystem are as before, the task object is unchanged, and the failed
    [create_dir] is the only outgoing call.  This holds whatever the name,
    the parent path and the conflict behaviour of the task are, [None]
    included. *)
Theorem CreateDirTask_failure_atomic t w r drv (n pp : option string)
    (cb : option NameConflictBehavior) (e : exn) :
  _drive t = Val r -> drives w !! r = Some drv ->
  _name t = attr_of_option n -> _parent_path t = attr_of_option pp ->
  conflict_behavior t = attr_of_option cb ->
  create_dir drv n pp cb = Raises e ->
  isinstance_OneDriveError e = true ->
  exists w',
    CreateDirTask_handle {| self := t; world := w |}
    = (Returns (), {| self := t; world := w' |})
    /\ stores w' = stores w
    /\ pools w' = pools w
    /\ fs w' = fs w
    /\ calls_of_run w w' [(DriveCreateDir r n pp cb, false)]
    /\ log w' = (log w ++ [{| log_level := ERROR; log_fmt := "An API error occurred: %s.";
                              log_args := [exn_msg e] |}])%list.
Proof.
  intros Hd Hdrv Hn Hpp Hcb Hc He.
  destruct n, pp, cb; cbn [attr_of_option] in Hn, Hpp, Hcb.
  all: unfold CreateDirTask_handle; mgo.
  all: eexists; split; [reflexivity |]; by tr_norm.
Qed.

(** C4 (RemoveItemTask).  The path handed to [delete_item] is
    [parent_path + '/' + name] and it is the only drive call.  When the
    remote delete returns, the record under (parent_path, name, is_folder)
    is removed from the store, [is_folder] being the attribute as it is;
    when it raises, the stores are untouched (and an API error is
    swallowed). *)
Theorem RemoveItemTask_store_semantics t w r drv (pp n : string) :
  _drive t = Val r -> drives w !! r = Some drv ->
  _parent_path t = Val pp -> _name t = Val n ->
  let path := pp ++ "/" ++ n in
  let out := RemoveItemTask_handle {| self := t; world := w |} in
  (exists cs, calls_of_run w (world out.2)
                ((DriveDeleteItem r path, returned (delete_item drv path)) :: cs)
              /\ drive_calls cs = [])
  /\ (delete_item drv path = Returns () ->
      forall s db (f : option bool),
        _items_store t = Val s -> stores w !! s = Some db ->
        is_folder t = attr_of_option f ->
        fault w (StoreDeleteItem s pp n f) = None ->
        out.1 = Returns ()
        /\ calls_of_run w (world out.2)
             [(DriveDeleteItem r path, true); (StoreDeleteItem s pp n f, true)]
        /\ stores (world out.2) = <[s := delete (pp, n, f) db]> (stores w)
        /\ (exists db', stores (world out.2) !! s = Some db' /\ db' !! (pp, n, f) = None))
  /\ (forall e, delete_item drv path = Raises e ->
        stores (world out.2) = stores w
        /\ (isinstance_OneDriveError e = true -> out.1 = Returns ())).
Proof.
  intros Hd Hdrv Hpp Hn path out. subst path out.
  unfold RemoveItemTask_handle. mgo. split; [| split].
  - mall; eexists; (split; [tr_norm; reflexivity | reflexivity]).
  - intros Hdel s db f Hs Hdb Hf Hfault.
    destruct f; cbn [attr_of_option] in Hf.
    all: mgo; (split; [done |]).
    all: split; [by tr_norm |]; (split; [done |]).
    all: eexists; (split; [apply lookup_insert_eq |]).
    all: apply (lookup_delete_eq (M := gmap StoreKey)).
  - intros e Hdel. mgo. destruct (isinstance_OneDriveError e); mred; by split.
Qed.

(** ** Renaming in the local tree *)

Lemma str_app_slash_ne (a rest : string) : a ++ "/" ++ rest <> a.
Proof.
  intros H. apply (f_equal String.length) in H.
  rewrite !str_length_app in H. simpl in H. lia.
Qed.

(** What [move_tree] holds: each of its entries comes from an entry of the
    tree, under that entry's new key, and each entry of the tree has one. *)
Lemma move_tree_lookup (src dst : string) (m : gmap string (@Node timestamp)) :
  (forall k v, move_tree src dst m !! k = Some v ->
     exists y, m !! y = Some v /\ rekey src dst y = k)
  /\ (forall y v, m !! y = Some v -> is_Some (move_tree src dst m !! rekey src dst y)).
Proof.
  unfold move_tree.
  apply (map_fold_weak_ind (fun (acc m0 : gmap string (@Node timestamp)) =>
    (forall k v, acc !! k = Some v -> exists y, m0 !! y = Some v /\ rekey src dst y = k)
    /\ (forall y v, m0 !! y = Some v -> is_Some (acc !! rekey src dst y)))).
  - split; intros ? ?; by rewrite lookup_empty.
  - intros i x m0 acc Hi [IH1 IH2]. split.
    + intros k v. destruct (decide (rekey src dst i = k)) as [<-|Hne].
      * rewrite lookup_insert_eq. intros [= <-]. exists i. by rewrite lookup_insert_eq.
      * rewrite lookup_insert_ne by done. intros Hk.
        destruct (IH1 _ _ Hk) as (y & Hy & <-). exists y. split; [| done].
        rewrite lookup_insert_ne; [done |]. intros ->. congruence.
    + intros y v. destruct (decide (i = y)) as [<-|Hne].
      * intros _. rewrite lookup_insert_eq. eauto.
      * rewrite lookup_insert_ne by done. intros Hy.
        destruct (decide (rekey src dst i = rekey src dst y)) as [->|Hk].
        -- rewrite lookup_insert_eq. eauto.
        -- rewrite lookup_insert_ne by done. eauto.
Qed.

Lemma has_entries_below_false (dir : string) (m : gmap string (@Node timestamp)) :
  has_entries_below dir m = false ->
  forall y v, m !! y = Some v -> PyStr.startswith y (dir ++ "/") = false.
Proof.
  unfold has_entries_below.
  apply (map_fold_weak_ind (fun (b : bool) (m0 : gmap string (@Node timestamp)) =>
    b = false -> forall y v, m0 !! y = Some v -> PyStr.startswith y (dir ++ "/") = false)).
  - intros _ y v. by rewrite lookup_empty.
  - intros i x m0 b Hi IH Hb y v. apply orb_false_iff in Hb as [Hb Hi'].
    destruct (decide (i = y)) as [<-|Hne]; [done |].
    rewrite lookup_insert_ne by done. by apply IH.
Qed.

(** A directory moved to a name that is free of entries below it: the
    directory is at the new name and nothing is left at the old one. *)
Lemma move_tree_dir (src dst : string) (m : gmap string (@Node timestamp)) :
  src <> dst -> m !! src = Some Dir ->
  (forall c a mt, m !! dst <> Some (File c a mt)) ->
  has_entries_below dst m = false ->
  move_tree src dst m !! dst = Some Dir /\ move_tree src dst m !! src = None.
Proof.
  intros Hne Hsrc Hdst Hbelow.
  destruct (move_tree_lookup src dst m) as [Hfrom Hto].
  assert (rekey src dst src = dst) as Hk by (unfold rekey; by rewrite decide_True).
  split.
  - destruct (Hto src Dir Hsrc) as [v Hv]. rewrite Hk in Hv. rewrite Hv.
    destruct (Hfrom _ _ Hv) as (y & Hy & Hky). unfold rekey in Hky.
    destruct (decide (y = src)) as [->|Hy'].
    + congruence.
    + destruct (PyStr.strip_prefix (src ++ "/") y) as [rest|] eqn:E.
      * by apply str_app_slash_ne in Hky.
      * subst y. destruct v; [by apply Hdst in Hy | done].
  - destruct (move_tree src dst m !! src) as [v|] eqn:E; [| done]. exfalso.
    destruct (Hfrom _ _ E) as (y & Hy & Hky). unfold rekey in Hky.
    destruct (decide (y = src)) as [->|Hy']; [done |].
    destruct (PyStr.strip_prefix (src ++ "/") y) as [rest|] eqn:E'; [| done].
    pose proof (has_entries_below_false _ _ Hbelow _ _ Hsrc) as Hs.
    rewrite <- Hky, <- str_app_assoc in Hs.
    unfold PyStr.startswith in Hs. by rewrite str_strip_prefix_app in Hs.
Qed.

(** [os.rename] touches the filesystem and appends its own call to the
    trace; nothing else changes.  When it raises, the filesystem is as
    before; when it returns, the entry that was at [src] is at [dst] and
    [src] is gone; and it does return for a directory whose new name is
    free. *)
Lemma os_rename_spec (src dst : string) st :
  exists res fs',
    os_rename src dst st
    = (res, {| self := self st;
               world := with_trace (trace (world st) ++ [(OsRename src dst, returned res)])
                          (with_fs fs' (world st)) |})
    /\ (returned res = false -> fs' = fs (world st))
    /\ (returned res = true -> src <> dst ->
        exists node, fs (world st) !! src = Some node
          /\ fs' !! dst = Some node /\ fs' !! src = None)
    /\ (fault (world st) (OsRename src dst) = None ->
        fs (world st) !! src = Some Dir -> src <> dst ->
        fs (world st) !! dst = None ->
        has_entries_below dst (fs (world st)) = false ->
        res = Returns () /\ fs' = move_tree src dst (fs (world st))).
Proof.
  destruct st as [o w]. cbn [self world]. mos. mall.
  all: first [ eexists (Returns ()), _; split; [reflexivity |]
             | eexists (Raises _), (fs w); split; [by destruct w |]
             | eexists (Returns ()), (fs w); split; [by destruct w |] ].
  all: cbn [returned]; split; [first [done | by intros [=]] |].
  all: split; [| intros; first [done | congruence]].
  all: try (by intros [=]).
  all: intros _ Hne; try congruence.
  - (* a file was moved *)
    eexists. split; [reflexivity |]. split; [apply lookup_insert_eq |].
    rewrite lookup_insert_ne by done. apply lookup_delete_eq.
  - eexists. split; [reflexivity |]. split; [apply lookup_insert_eq |].
    rewrite lookup_insert_ne by done. apply lookup_delete_eq.
  - (* a directory was moved, onto an empty directory or a free name *)
    exists Dir. split; [done |].
    apply move_tree_dir; [done | done | intros; congruence | done].
  - exists Dir. split; [done |].
    apply move_tree_dir; [done | done | intros; congruence | done].
Qed.

(** C3 (CreateDirTask, success).  When [create_dir] returns [new_item]:

    - the task's parent path becomes the server's;
    - when the names are equal, [os.rename] is not called and the local
      tree is as before; when they differ, [os.rename] is called once, from
      the requested to the returned name under the new local parent path,
      and if that call returns, the entry that was under the requested name
      is under the returned name and the requested name is gone, whereas if
      it raises, the tree, the stores and the pools are as before;
    - a task is handed to the pool only with a successful store update of
      [new_item] before it, it is the last call, and it is a
      [SynchronizeDirTask]; a changed pool comes with the store holding
      [new_item], status OK;
    - in a world where the task has a store and a pool, neither refuses the
      call, and (for differing names) the local directory is there and its
      new name is free, the run returns after exactly these calls, all
      successful: [create_dir], the rename if the names differ, the store
      update, the enqueueing; the directory is under its new name and not
      under the old one, the store holds [new_item] with status OK and the
      pool ends with the [SynchronizeDirTask]. *)
Theorem CreateDirTask_success_protocol t w r drv (n : string) (pp : option string)
    (cb : option NameConflictBehavior) (new_item : Item) :
  _drive t = Val r -> drives w !! r = Some drv ->
  _name t = Val n -> _parent_path t = attr_of_option pp ->
  conflict_behavior t = attr_of_option cb ->
  create_dir drv (Some n) pp cb = Returns new_item ->
  let out := CreateDirTask_handle {| self := t; world := w |} in
  let lpp := PyStr.replace1 (root_marker drv) (config_local_root drv)
               (item_parent_reference_path new_item) in
  let src := lpp ++ "/" ++ n in
  let dst := lpp ++ "/" ++ item_name new_item in
  let sync_task := blank SynchronizeDirTask in
  _parent_path (self out.2) = Val (item_parent_reference_path new_item)
  /\ (exists cs,
      calls_of_run w (world out.2) ((DriveCreateDir r (Some n) pp cb, true) :: cs)
      /\ rename_calls cs = (if decide (item_name new_item = n) then [] else [OsRename src dst])
      /\ (item_name new_item = n -> fs (world out.2) = fs w)
      /\ (item_name new_item <> n ->
          exists ok, In (OsRename src dst, ok) cs
            /\ (ok = true ->
                exists node, fs w !! src = Some node
                  /\ fs (world out.2) !! dst = Some node
                  /\ fs (world out.2) !! src = None)
            /\ (ok = false ->
                fs (world out.2) = fs w /\ stores (world out.2) = stores w
                /\ pools (world out.2) = pools w))
      /\ (forall before after p task ok,
            cs = (before ++ (PoolAddTask p task, ok) :: after)%list ->
            exists s, In (StoreUpdateItem s new_item OK, true) before
                      /\ after = [] /\ cls task = SynchronizeDirTask)
      /\ (pools (world out.2) <> pools w ->
          exists s db, stores w !! s = Some db
            /\ stores (world out.2) = <[s := ItemsStore_update_item new_item OK db]> (stores w))
      /\ (out.1 = Returns () -> Forall (fun c => c.2 = true) cs ->
          exists s db p q,
            stores w !! s = Some db /\ pools w !! p = Some q
            /\ stores (world out.2) = <[s := ItemsStore_update_item new_item OK db]> (stores w)
            /\ pools (world out.2) = <[p := (q ++ [sync_task])%list]> (pools w)))
  /\ (forall s db p q,
        _items_store t = Val s -> stores w !! s = Some db ->
        _task_pool t = Val p -> pools w !! p = Some q ->
        fault w (StoreUpdateItem s new_item OK) = None ->
        fault w (PoolAddTask p sync_task) = None ->
        (item_name new_item <> n ->
         fault w (OsRename src dst) = None /\ fs w !! src = Some Dir
         /\ fs w !! dst = None /\ has_entries_below dst (fs w) = false) ->
        out.1 = Returns ()
        /\ calls_of_run w (world out.2)
             ((DriveCreateDir r (Some n) pp cb, true)
              :: (if decide (item_name new_item = n) then [] else [(OsRename src dst, true)])
              ++ [(StoreUpdateItem s new_item OK, true); (PoolAddTask p sync_task, true)])%list
        /\ (item_name new_item <> n ->
            fs (world out.2) = move_tree src dst (fs w)
            /\ fs (world out.2) !! dst = Some Dir /\ fs (world out.2) !! src = None)
        /\ stores (world out.2) = <[s := ItemsStore_update_item new_item OK db]> (stores w)
        /\ pools (world out.2) = <[p := (q ++ [sync_task])%list]> (pools w)
        /\ log (world out.2)
           = (log w ++ [{| log_level := INFO;
                           log_fmt := "Created remote directory: %s/%s. Item ID: %s.";
                           log_args := [item_parent_reference_path new_item;
                                        item_name new_item; item_id new_item] |}])%list).
Proof.
  intros Hd Hdrv Hn Hpp Hcb Hc out lpp src dst sync_task.
  assert (item_name new_item <> n -> src <> dst) as Hsd.
  { intros Hne E. subst src dst. apply str_app_inv_head in E.
    apply str_app_inv_head in E. congruence. }
  apply and_assoc. split.
  - (* every run *)
    remember (CreateDirTask_handle _) as o eqn:Ho in out.
    subst out lpp src dst sync_task. revert Ho. unfold CreateDirTask_handle.
    destruct pp, cb; cbn [attr_of_option] in Hpp, Hcb.
    all: mgo.
    all: destruct (decide (item_name new_item = n)) as [Heq|Hne].
    all: try (rewrite (decide_True (P := Some (item_name new_item) = Some n)) by congruence).
    all: try (rewrite (decide_False (P := Some (item_name new_item) = Some n)) by congruence;
              mgo;
              match goal with
              | |- context [os_rename ?a ?b ?st] =>
                  destruct (os_rename_spec a b st) as (res & fs' & E & Hfail & Hok & _);
                  rewrite E; clear E;
                  cbn [self world fs with_trace with_fs] in Hfail, Hok;
                  destruct res as [[]|e]
              end).
    all: mall.
    all: intros ->; mred.
    all: split; [reflexivity |]; eexists; split; [tr_norm; reflexivity |].
    all: split; [reflexivity |].
    all: split; [by intros |].
    all: split;
      [ first
          [ by intros
          | intros _; exists true; split; [by left |]; split; [| by intros [=]];
            intros _; apply Hok; [done | by apply Hsd]
          | intros _; exists false; split; [by left |]; split; [by intros [=] |];
            intros _; split; [by apply Hfail | done] ] |].
    all: split; [intros before after p0 task ok Hcs;
                 repeat (destruct before as [|? before]; simplify_eq/=);
                 eexists; (split; [| done]); by (left + (right; left)) |].
    all: split; [try (by intros []); eauto |].
    all: intros Hret HF; simplify_eq; repeat (apply Forall_cons in HF as [? HF]); simplify_eq/=.
    all: eauto 10.
  - (* the run in a world that lets every call through *)
    intros s db p q Hs Hdb Hp Hq Hf1 Hf2 Hren.
    remember (CreateDirTask_handle _) as o eqn:Ho in out.
    subst out lpp src dst sync_task. unfold root_marker in *.
    revert Ho. unfold CreateDirTask_handle.
    destruct pp, cb; cbn [attr_of_option] in Hpp, Hcb.
    all: mgo.
    all: destruct (decide (item_name new_item = n)) as [Heq|Hne].
    all: try (rewrite (decide_True (P := Some (item_name new_item) = Some n)) by congruence).
    all: try (rewrite (decide_False (P := Some (item_name new_item) = Some n)) by congruence;
              mgo;
              destruct (Hren Hne) as (Hf0 & Hsrc & Hdst & Hbelow);
              match goal with
              | |- context [os_rename ?a ?b ?st] =>
                  destruct (os_rename_spec a b st) as (res & fs' & E & _ & _ & Hrun);
                  rewrite E; clear E;
                  destruct (Hrun Hf0 Hsrc (Hsd Hne) Hdst Hbelow) as [-> ->]
              end).
    all: mgo.
    all: intros ->; mred.
    all: split; [reflexivity |].
    all: split; [tr_norm; reflexivity |].
    all: split; [first [done | intros _; split; [reflexivity |];
                        apply move_tree_dir; [by apply Hsd | done | intros; congruence | done]] |].
    all: by repeat split.
Qed.

(** An exception of [os.rename] that is not an API error leaves
    [CreateDirTask.handle]: its only handler is for [OneDriveError].  The
    store and the pool are never reached. *)
Lemma CreateDirTask_rename_exception_propagates t w r drv (n pp : string)
    (cb : NameConflictBehavior) (new_item : Item) (e : exn) :
  _drive t = Val r -> drives w !! r = Some drv ->
  _name t = Val n -> _parent_path t = Val pp -> conflict_behavior t = Val cb ->
  create_dir drv (Some n) (Some pp) (Some cb) = Returns new_item ->
  item_name new_item <> n ->
  fault w (OsRename
             (PyStr.replace1 (root_marker drv) (config_local_root drv)
                (item_parent_reference_path new_item) ++ "/" ++ n)
             (PyStr.replace1 (root_marker drv) (config_local_root drv)
                (item_parent_reference_path new_item) ++ "/" ++ item_name new_item))
  = Some e ->
  isinstance_OneDriveError e = false ->
  let out := CreateDirTask_handle {| self := t; world := w |} in
  out.1 = Raises e
  /\ stores (world out.2) = stores w
  /\ pools (world out.2) = pools w
  /\ log (world out.2) = log w.
Proof.
  intros Hd Hdrv Hn Hpp Hcb Hc Hne Hfault He out. subst out.
  unfold root_marker in Hfault. unfold CreateDirTask_handle. mgo.
  rewrite (decide_False (P := Some (item_name new_item) = Some n)) by congruence.
  mgo. mos. mgo. by repeat split.
Qed.

(** The temporary path is never the final path. *)
Lemma temp_path_ne (l nm : string) :
  l ++ "/" ++ "." ++ nm ++ ".!od_tmp" <> l ++ "/" ++ nm.
Proof.
  intros H. apply str_app_inv_head in H. apply str_app_inv_head in H.
  apply (f_equal String.length) in H.
  rewrite !str_length_app in H. simpl in H. lia.
Qed.

(** A log with a record appended is not the log before. *)
Lemma log_grew (l : list LogRecord) (x : LogRecord) : (l ++ [x])%list <> l.
Proof.
  intros H. apply (f_equal length) in H. rewrite length_app in H. simpl in H. lia.
Qed.

(** At the end of a path: a run that raised or logged an error did not
    complete without error. *)
Ltac mleaf :=
  intros ->; mred;
  let Hret := fresh "Hret" in let Hlog := fresh "Hlog" in
  intros [Hret Hlog]; cbn [fst snd world log with_log with_trace with_stores with_fs with_pools] in Hret, Hlog;
  try discriminate Hret;
  try (exfalso; exact (log_grew _ _ Hlog)).

(** Every path, through the filesystem operations as well. *)
Ltac mall_fs := repeat (mred; mos; first [rewrite lookup_insert_eq | mrw | mcase]); mred.

(** C5 (DownloadFileTask, success).  A run that completes without error
    made exactly these calls, in order: open the temporary path
    [local_parent/.<name>.!od_tmp] for writing, download into it, rename it
    to [local_parent/<name>], set the times of that file to
    [datetime_to_timestamp(item.modified_time)], update the store with
    status DOWNLOADED.  The temporary path differs from the final one;
    afterwards the final file exists with the downloaded content and that
    modification time, and the temporary file does not exist. *)
Theorem DownloadFileTask_success t w :
  let out := DownloadFileTask_handle datetime_to_timestamp {| self := t; world := w |} in
  completes_without_error w out ->
  exists r drv (it : Item) (pp : string) s db,
    _drive t = Val r /\ drives w !! r = Some drv /\ _item t = Val it
    /\ _parent_path t = Val pp /\ _items_store t = Val s /\ stores w !! s = Some db
    /\ let lpp := PyStr.replace1 (root_marker drv) (config_local_root drv) pp in
       let temp := lpp ++ "/" ++ "." ++ item_name it ++ ".!od_tmp" in
       let final := lpp ++ "/" ++ item_name it in
       let ts := datetime_to_timestamp (item_modified_time it) in
       let data := (download_file drv (item_size it) (item_id it)).1 in
       temp <> final
       /\ calls_of_run w (world out.2)
            [(Open temp WB, true);
             (DriveDownloadFile r temp (item_size it) (item_id it), true);
             (OsRename temp final, true);
             (OsUtime final ts ts, true);
             (StoreUpdateItem s it DOWNLOADED, true)]
       /\ fs (world out.2) !! final = Some (File data ts ts)
       /\ fs (world out.2) !! temp = None
       /\ stores (world out.2) = <[s := ItemsStore_update_item it DOWNLOADED db]> (stores w).
Proof.
  intros out. remember (DownloadFileTask_handle _ _) as o eqn:Ho in out. subst out.
  revert Ho. unfold DownloadFileTask_handle, completes_without_error.
  mall_fs.
  all: mleaf.
  all: do 6 eexists; repeat (split; [first [reflexivity | eassumption] |]).
  all: split; [apply temp_path_ne |].
  all: split; [tr_norm; reflexivity |].
  all: split; [apply lookup_insert_eq |].
  all: split; [| reflexivity].
  all: rewrite !lookup_insert_ne by (intros H; symmetry in H; by apply temp_path_ne in H).
  all: apply lookup_delete_eq.
Qed.

(** C6 (UploadFileTask).  A run that completes without error made two drive
    calls: [upload_file] with the content and size of the local file, then
    [update_item] on the uploaded item's id with the local file's
    modification time; the store update comes last and stores the item
    returned by [update_item], with status OK.  A run that does not complete
    without error leaves the stores as they were.  And there are such runs:
    when the local file is there, the drive answers both calls, and neither
    the filesystem nor the store refuses, the run completes without error
    after exactly those calls, and the store holds the record of the item
    returned by [update_item]. *)
Theorem UploadFileTask_call_order t w :
  let out := UploadFileTask_handle timestamp_to_datetime {| self := t; world := w |} in
  (completes_without_error w out ->
   exists r drv (n pp : string) cb s db content atime mtime (item1 item2 : Item),
     _drive t = Val r /\ drives w !! r = Some drv /\ _name t = Val n
     /\ _parent_path t = Val pp /\ conflict_behavior t = attr_of_option cb
     /\ _items_store t = Val s /\ stores w !! s = Some db
     /\ let path := PyStr.replace1 (root_marker drv) (config_local_root drv) pp ++ "/" ++ n in
        let size := Z.of_nat (length content) in
        let fs_info := {| fsi_modified_time := timestamp_to_datetime mtime |} in
        fs w !! path = Some (File content atime mtime)
        /\ upload_file drv n content size pp cb = Returns item1
        /\ update_item drv (item_id item1) fs_info = Returns item2
        /\ (let cs := [(OsPathGetsize path, true);
                        (Open path RB, true);
                        (DriveUploadFile r n content size pp cb, true);
                        (OsPathGetmtime path, true);
                        (DriveUpdateItem r (item_id item1) fs_info, true);
                        (StoreUpdateItem s item2 OK, true)] in
            calls_of_run w (world out.2) cs
            /\ drive_calls cs
               = [DriveUploadFile r n content size pp cb;
                  DriveUpdateItem r (item_id item1) fs_info])
        /\ stores (world out.2) = <[s := ItemsStore_update_item item2 OK db]> (stores w))
  /\ (~ completes_without_error w out -> stores (world out.2) = stores w)
  /\ (forall r drv (n pp : string) cb s db content atime mtime (item1 item2 : Item),
        _drive t = Val r -> drives w !! r = Some drv -> _name t = Val n ->
        _parent_path t = Val pp -> conflict_behavior t = attr_of_option cb ->
        _items_store t = Val s -> stores w !! s = Some db ->
        let path := PyStr.replace1 (root_marker drv) (config_local_root drv) pp ++ "/" ++ n in
        let size := Z.of_nat (length content) in
        let fs_info := {| fsi_modified_time := timestamp_to_datetime mtime |} in
        fs w !! path = Some (File content atime mtime) ->
        fault w (OsPathGetsize path) = None ->
        fault w (Open path RB) = None ->
        fault w (OsPathGetmtime path) = None ->
        upload_file drv n content size pp cb = Returns item1 ->
        update_item drv (item_id item1) fs_info = Returns item2 ->
        fault w (StoreUpdateItem s item2 OK) = None ->
        completes_without_error w out
        /\ calls_of_run w (world out.2)
             [(OsPathGetsize path, true);
              (Open path RB, true);
              (DriveUploadFile r n content size pp cb, true);
              (OsPathGetmtime path, true);
              (DriveUpdateItem r (item_id item1) fs_info, true);
              (StoreUpdateItem s item2 OK, true)]
        /\ stores (world out.2) = <[s := ItemsStore_update_item item2 OK db]> (stores w)
        /\ (exists db', stores (world out.2) !! s = Some db'
                        /\ db' !! store_key item2 = Some (item2, OK))
        /\ fs (world out.2) = fs w).
Proof.
  intros out. apply and_assoc. split.
  - remember (UploadFileTask_handle _ _) as o eqn:Ho in out. subst out.
    revert Ho. unfold UploadFileTask_handle, completes_without_error.
    mall_fs.
    all: intros ->; mred.
    all: split; [| first [reflexivity | intros []; by split]].
    all: intros [Hret Hlog];
      cbn [fst snd world log with_log with_trace with_stores with_fs with_pools] in Hret, Hlog;
      try discriminate Hret; try (exfalso; exact (log_grew _ _ Hlog)).
    all: do 12 eexists;
      repeat (split;
        [first
           [ reflexivity
           | eassumption
           | match goal with
             | |- PyNone = match ?c with _ => _ end =>
                 unify c (@None NameConflictBehavior); reflexivity
             | |- Val ?x = match ?c with _ => _ end => unify c (Some x); reflexivity
             end ] |]).
    all: split; [| reflexivity]; split; [tr_norm; reflexivity | reflexivity].
  - intros r drv n pp cb s db content atime mtime item1 item2
      Hd Hdrv Hn Hpp Hcb Hs Hdb path size fs_info Hfile Hf1 Hf2 Hf3 Hup Hupd Hf4.
    remember (UploadFileTask_handle _ _) as o eqn:Ho in out.
    subst out path size fs_info. unfold root_marker in *.
    revert Ho. unfold UploadFileTask_handle, completes_without_error.
    destruct cb; cbn [attr_of_option] in Hcb.
    all: repeat (mred; mos; mrw); mred.
    all: intros ->; mred.
    all: split; [by split |].
    all: split; [tr_norm; reflexivity |].
    all: split; [reflexivity |].
    all: split; [| reflexivity].
    all: eexists; split; [apply lookup_insert_eq |].
    all: apply (lookup_insert_eq (M := gmap StoreKey)).
Qed.

(** Cancelling a common suffix. *)
Lemma str_app_inv_tail (a b s : string) : a ++ s = b ++ s -> a = b.
Proof.
  revert b. induction a as [|c a IH]; intros [|c' b] H.
  - done.
  - apply (f_equal String.length) in H.
    rewrite str_app_cons, str_app_nil_l in H.
    simpl in H. rewrite str_length_app in H. lia.
  - apply (f_equal String.length) in H.
    rewrite str_app_cons, str_app_nil_l in H.
    simpl in H. rewrite str_length_app in H. lia.
  - rewrite !str_app_cons in H. injection H as -> H. f_equal. by apply IH.
Qed.

(** C7, amended (context inheritance).  For the classes whose constructor
    has a body (CreateDirTask, RemoveItemTask, DownloadFileTask,
    UploadFileTask), a task constructed from a [task_base] holds the parent's
    three references, and construction changes nothing in the world.
    Construction returns whenever the parent has a drive and its store and
    pool attributes are assigned. *)
Theorem implemented_child_inherits_context (k : Ctor) (base : Task) st :
  has_constructor_body k = true ->
  (forall child st',
     instantiate k base st = (Returns child, st') ->
     _drive child = _drive base
     /\ _items_store child = _items_store base
     /\ _task_pool child = _task_pool base
     /\ st' = st)
  /\ (forall r drv,
        _drive base = Val r -> drives (world st) !! r = Some drv ->
        _items_store base <> Unset -> _task_pool base <> Unset ->
        exists child, instantiate k base st = (Returns child, st)).
Proof.
  intros Hk. destruct st as [o w].
  destruct k; try discriminate Hk; clear Hk.
  all: unfold instantiate, ctor_init, ctor_class, CreateDirTask_init, RemoveItemTask_init,
         DownloadFileTask_init, UploadFileTask_init.
  all: split; [intros child st' | intros r drv Hd Hdrv Hs Hp; cbn [world] in Hdrv].
  all: mall; try (intros; simplify_eq; done); try (by eexists).
Qed.

(** C9, amended (temporary names).  [get_temp_filename] is
    ['.' + item.name + '.!od_tmp']: it differs from the item's name, and the
    temporary names of two tasks are equal exactly when their items' names
    are equal. *)
Theorem temp_filename_determined_by_name (t1 t2 : Task) st (it1 it2 : Item) :
  _item t1 = Val it1 -> _item t2 = Val it2 ->
  exists f1 f2,
    get_temp_filename t1 st = (Returns f1, st)
    /\ get_temp_filename t2 st = (Returns f2, st)
    /\ f1 = "." ++ item_name it1 ++ ".!od_tmp"
    /\ f1 <> item_name it1
    /\ (f1 = f2 <-> item_name it1 = item_name it2).
Proof.
  intros H1 H2. eexists _, _. split; [mgo; reflexivity |]. split; [mgo; reflexivity |].
  split; [reflexivity |]. split.
  - intros H. apply (f_equal String.length) in H.
    rewrite !str_length_app in H. simpl in H. lia.
  - split.
    + intros H. apply str_app_inv_head in H. by apply str_app_inv_tail in H.
    + by intros ->.
Qed.

End Properties.

(** C7 as stated fails: the [SynchronizeDirTask] built from a
    [CreateDirTask] parent has none of the parent's references. *)
Lemma stub_child_lacks_context :
  ~ (forall (k : @Ctor Z) (base child : @Task Z) (st st' : @State Z Z),
       instantiate k base st = (Returns child, st') ->
       _drive child = _drive base
       /\ _items_store child = _items_store base
       /\ _task_pool child = _task_pool base).
Proof.
  intros H.
  destruct (H NewSynchronizeDirTask Sample.create_photos (blank SynchronizeDirTask)
              {| self := Sample.create_photos; world := Sample.world |}
              {| self := Sample.create_photos; world := Sample.world |} eq_refl)
    as [Hd _].
  discriminate Hd.
Qed.

(** C9 as stated fails: two distinct download tasks for items of the same
    name in the same directory derive the same temporary filename. *)
Lemma same_name_same_temp_filename :
  ~ (forall (t1 t2 : @Task Z) (st : @State Z Z) (it1 it2 : Item) (l1 l2 f1 f2 : string),
       t1 <> t2 ->
       cls t1 = DownloadFileTask -> cls t2 = DownloadFileTask ->
       _item t1 = Val it1 -> _item t2 = Val it2 ->
       item_name it1 = item_name it2 ->
       local_parent_path t1 st = (Returns l1, st) ->
       local_parent_path t2 st = (Returns l2, st) ->
       l1 = l2 ->
       get_temp_filename t1 st = (Returns f1, st) ->
       get_temp_filename t2 st = (Returns f2, st) ->
       f1 <> f2).
Proof.
  intros H.
  refine (H Sample.download_a_txt Sample.download_other
            {| self := Sample.download_a_txt; world := Sample.world |}
            Sample.some_file Sample.other_file
            "/home/u/OneDrive/docs" "/home/u/OneDrive/docs"
            ".a.txt.!od_tmp" ".a.txt.!od_tmp" _ eq_refl eq_refl eq_refl eq_refl eq_refl
            _ _ eq_refl eq_refl eq_refl eq_refl).
  - intros E. discriminate E.
  - vm_compute. reflexivity.
  - vm_compute. reflexivity.
Qed.

(** C8 (errors at the task boundary).  [CreateDirTask.handle] on a tree that
    lacks the local directory: the drive creates [photos 1], [os.rename]
    raises [OSError], and the exception leaves [handle()] with nothing
    logged. *)
Theorem CreateDirTask_rename_error_escapes :
  let out := run_handle Sample.to_timestamp Sample.to_datetime Sample.create_photos
               Sample.bare_world in
  out.1 = Raises {| exn_class := OSError; exn_msg := "No such file or directory" |}
  /\ log (world out.2) = []
  /\ trace (world out.2)
     = [(DriveCreateDir 1%positive (Some "photos") (Some "/drive/root:/docs") (Some RENAME),
         true);
        (OsRename "/home/u/OneDrive/docs/photos" "/home/u/OneDrive/docs/photos 1", false)].
Proof. vm_compute. repeat split. Qed.

(** ** Runs in the sample world *)

Example create_photos_run :
  let out := run_handle Sample.to_timestamp Sample.to_datetime Sample.create_photos
               Sample.world in
  out.1 = Returns ()
  /\ fs (world out.2) !! "/home/u/OneDrive/docs/photos 1" = Some Dir
  /\ fs (world out.2) !! "/home/u/OneDrive/docs/photos" = None
  /\ pools (world out.2) !! 3%positive = Some [blank SynchronizeDirTask].
Proof. vm_compute. repeat split. Qed.

Example download_a_txt_run :
  let out := run_handle Sample.to_timestamp Sample.to_datetime Sample.download_a_txt
               Sample.world in
  out.1 = Returns ()
  /\ fs (world out.2) !! "/home/u/OneDrive/docs/a.txt" = Some (File [x01; x02; x03] 5%Z 5%Z)
  /\ fs (world out.2) !! "/home/u/OneDrive/docs/.a.txt.!od_tmp" = None.
Proof. vm_compute. repeat split. Qed.

Example failed_download_leaves_temp_file :
  let out := run_handle Sample.to_timestamp Sample.to_datetime Sample.download_a_txt
               Sample.failing_world in
  out.1 = Returns ()
  /\ fs (world out.2) !! "/home/u/OneDrive/docs/.a.txt.!od_tmp" = Some (File [] 7%Z 7%Z)
  /\ map log_level (log (world out.2)) = [ERROR].
Proof. vm_compute. repeat split. Qed.

Example synchronize_dir_handle_is_pass :
  run_handle Sample.to_timestamp Sample.to_datetime (blank SynchronizeDirTask) Sample.world
  = (Returns (), {| self := blank SynchronizeDirTask; world := Sample.world |}).
Proof. reflexivity. Qed.

(** ** The theorems at work in the sample world *)

Lemma path_round_trip_witness :
  exists l,
    local_parent_path Sample.create_photos
      {| self := Sample.create_photos; world := Sample.world |}
    = (Returns l, {| self := Sample.create_photos; world := Sample.world |})
    /\ (exists rel, l = config_local_root Sample.good_drive ++ rel)
    /\ (forall rel, l = config_local_root Sample.good_drive ++ rel ->
        exists o', set_local_parent_path rel
                     {| self := Sample.root_task; world := Sample.world |}
                   = (Returns (), {| self := o'; world := Sample.world |})
                /\ _parent_path o' = Val "/drive/root:/docs").
Proof.
  apply (path_round_trip Sample.create_photos Sample.root_task Sample.world
           1%positive Sample.good_drive "/drive/root:/docs"); reflexivity.
Defined.

Lemma local_parent_path_total_witness :
  local_parent_path Sample.misplaced {| self := Sample.misplaced; world := Sample.world |}
  = (Returns "x/home/u/OneDrive/docs",
     {| self := Sample.misplaced; world := Sample.world |}).
Proof.
  destruct (local_parent_path_total Sample.misplaced
              {| self := Sample.misplaced; world := Sample.world |}
              1%positive Sample.good_drive "x/drive/root:/docs")
    as (l & Hl & _ & Hfirst); [reflexivity | reflexivity | reflexivity |].
  rewrite Hl. rewrite (Hfirst "x" "/docs"); [reflexivity | reflexivity |].
  intros [|i] Hi; [| simpl; lia].
  apply str_occurs_at_0 in Hi as [rest Hi]. discriminate Hi.
Defined.

Lemma CreateDirTask_failure_atomic_witness :
  exists w',
    CreateDirTask_handle {| self := Sample.create_photos; world := Sample.failing_world |}
    = (Returns (), {| self := Sample.create_photos; world := w' |})
    /\ stores w' = stores Sample.failing_world
    /\ pools w' = pools Sample.failing_world.
Proof.
  destruct (CreateDirTask_failure_atomic Sample.create_photos Sample.failing_world
              1%positive Sample.failing_drive (Some "photos") (Some "/drive/root:/docs")
              (Some RENAME) Sample.api_error)
    as (w' & Hrun & Hs & Hp & _); [reflexivity .. |].
  exists w'. split; [exact Hrun |]. split; [exact Hs | exact Hp].
Defined.

Lemma CreateDirTask_success_protocol_witness :
  let out := CreateDirTask_handle {| self := Sample.create_photos; world := Sample.world |} in
  out.1 = Returns ()
  /\ _parent_path (self out.2) = Val "/drive/root:/docs"
  /\ trace (world out.2)
     = [(DriveCreateDir 1%positive (Some "photos") (Some "/drive/root:/docs") (Some RENAME),
         true);
        (OsRename "/home/u/OneDrive/docs/photos" "/home/u/OneDrive/docs/photos 1", true);
        (StoreUpdateItem 2%positive Sample.created_dir OK, true);
        (PoolAddTask 3%positive (blank SynchronizeDirTask), true)]
  /\ fs Sample.world !! "/home/u/OneDrive/docs/photos" = Some Dir
  /\ fs (world out.2) !! "/home/u/OneDrive/docs/photos 1" = Some Dir
  /\ fs (world out.2) !! "/home/u/OneDrive/docs/photos" = None
  /\ (exists db', stores (world out.2) !! 2%positive = Some db'
                  /\ db' !! store_key Sample.created_dir = Some (Sample.created_dir, OK))
  /\ pools Sample.world !! 3%positive = Some []
  /\ pools (world out.2) !! 3%positive = Some [blank SynchronizeDirTask].
Proof.
  assert (item_name Sample.created_dir <> "photos") as Hne by (intros E; discriminate E).
  destruct (CreateDirTask_success_protocol Sample.create_photos Sample.world
              1%positive Sample.good_drive "photos" (Some "/drive/root:/docs") (Some RENAME)
              Sample.created_dir)
    as (Hpp & _ & Hrun); [reflexivity .. |].
  destruct (Hrun 2%positive {[ store_key Sample.some_file := Sample.old_record ]}
              3%positive [])
    as (Hret & Hcs & Hfs & Hst & Hpool & _); [reflexivity .. | |].
  { intros _. vm_compute. repeat split. }
  destruct (Hfs Hne) as (_ & Hdst & Hsrc).
  split; [exact Hret |]. split; [exact Hpp |]. split; [exact Hcs |].
  split; [reflexivity |]. split; [exact Hdst |]. split; [exact Hsrc |].
  split; [| split; [reflexivity |]].
  - eexists. split.
    + rewrite Hst. apply lookup_insert_eq.
    + apply (lookup_insert_eq (M := gmap StoreKey)).
  - rewrite Hpool. apply lookup_insert_eq.
Defined.

Lemma RemoveItemTask_store_semantics_witness :
  let out := RemoveItemTask_handle {| self := Sample.remove_a_txt; world := Sample.world |} in
  out.1 = Returns ()
  /\ exists db', stores (world out.2) !! 2%positive = Some db'
               /\ db' !! ("/drive/root:/docs", "a.txt", Some false) = None.
Proof.
  destruct (RemoveItemTask_store_semantics Sample.remove_a_txt Sample.world
              1%positive Sample.good_drive "/drive/root:/docs" "a.txt")
    as (_ & Hok & _); [reflexivity .. |].
  destruct (Hok eq_refl 2%positive {[ store_key Sample.some_file := Sample.old_record ]}
              (Some false))
    as (Hret & _ & _ & Hgone); [reflexivity .. |].
  split; [exact Hret | exact Hgone].
Defined.

Lemma DownloadFileTask_success_witness :
  let out := DownloadFileTask_handle Sample.to_timestamp
               {| self := Sample.download_a_txt; world := Sample.world |} in
  exists (it : Item) s db,
    _item Sample.download_a_txt = Val it
    /\ stores Sample.world !! s = Some db
    /\ stores (world out.2) = <[s := ItemsStore_update_item it DOWNLOADED db]> (stores Sample.world).
Proof.
  destruct (DownloadFileTask_success Sample.to_timestamp Sample.download_a_txt Sample.world)
    as (r & drv & it & pp & s & db & _ & _ & Hit & _ & _ & Hdb & Hrest).
  { split; vm_compute; reflexivity. }
  cbv zeta in Hrest. destruct Hrest as (_ & _ & _ & _ & Hst).
  exists it, s, db. split; [exact Hit |]. split; [exact Hdb | exact Hst].
Defined.

Lemma UploadFileTask_call_order_witness :
  let out := UploadFileTask_handle Sample.to_datetime
               {| self := Sample.upload_a_txt; world := Sample.world |} in
  completes_without_error Sample.world out
  /\ trace (world out.2)
     = [(OsPathGetsize "/home/u/OneDrive/docs/a.txt", true);
        (Open "/home/u/OneDrive/docs/a.txt" RB, true);
        (DriveUploadFile 1%positive "a.txt" [x0a; x0b] 2 "/drive/root:/docs" (Some RENAME),
         true);
        (OsPathGetmtime "/home/u/OneDrive/docs/a.txt", true);
        (DriveUpdateItem 1%positive "U!1" {| fsi_modified_time := 2000%Z |}, true);
        (StoreUpdateItem 2%positive Sample.uploaded OK, true)]
  /\ (exists db, stores Sample.world !! 2%positive = Some db
                 /\ db !! store_key Sample.uploaded = Some (Sample.some_file, OK))
  /\ (exists db', stores (world out.2) !! 2%positive = Some db'
                  /\ db' !! store_key Sample.uploaded = Some (Sample.uploaded, OK))
  /\ Sample.uploaded <> Sample.some_file
  /\ Sample.uploaded <> Sample.uploaded_first.
Proof.
  destruct (UploadFileTask_call_order Sample.to_datetime Sample.upload_a_txt Sample.world)
    as (_ & _ & Hrun).
  destruct (Hrun 1%positive Sample.good_drive "a.txt" "/drive/root:/docs" (Some RENAME)
              2%positive {[ store_key Sample.some_file := Sample.old_record ]}
              [x0a; x0b] 1%Z 2%Z Sample.uploaded_first Sample.uploaded)
    as (Hok & Hcs & _ & Hrec & _); [reflexivity .. |].
  split; [exact Hok |]. split; [exact Hcs |].
  split; [eexists; split; reflexivity |]. split; [exact Hrec |].
  split; intros E; discriminate E.
Defined.

Lemma implemented_child_inherits_context_witness :
  exists child,
    instantiate (NewCreateDirTask "/docs" "photos" RENAME) Sample.root_task
      {| self := Sample.root_task; world := Sample.world |}
    = (Returns child, {| self := Sample.root_task; world := Sample.world |})
    /\ _drive child = Val 1%positive
    /\ _items_store child = Val 2%positive
    /\ _task_pool child = Val 3%positive.
Proof.
  destruct (implemented_child_inherits_context
              (NewCreateDirTask "/docs" "photos" RENAME) Sample.root_task
              {| self := Sample.root_task; world := Sample.world |})
    as [Hsame Hex]; [reflexivity |].
  destruct (Hex 1%positive Sample.good_drive) as [child Hchild];
    [reflexivity | reflexivity | discriminate | discriminate |].
  exists child. split; [exact Hchild |].
  destruct (Hsame child _ Hchild) as (Hd & Hs & Hp & _).
  split; [exact Hd |]. split; [exact Hs | exact Hp].
Defined.

Lemma temp_filename_determined_by_name_witness :
  exists f,
    get_temp_filename Sample.download_a_txt
      {| self := Sample.download_a_txt; world := Sample.world |}
    = (Returns f, {| self := Sample.download_a_txt; world := Sample.world |})
    /\ get_temp_filename Sample.download_other
         {| self := Sample.download_a_txt; world := Sample.world |}
       = (Returns f, {| self := Sample.download_a_txt; world := Sample.world |})
    /\ f = ".a.txt.!od_tmp".
Proof.
  destruct (temp_filename_determined_by_name Sample.download_a_txt Sample.download_other
              {| self := Sample.download_a_txt; world := Sample.world |}
              Sample.some_file Sample.other_file)
    as (f1 & f2 & H1 & H2 & Hf & _ & Hiff); [reflexivity | reflexivity |].
  exists f1. split; [exact H1 |]. split; [| exact Hf].
  rewrite (proj2 Hiff eq_refl). exact H2.
Defined.
